(** * Ztockly scalper: indicator library and signal engine

    A shallow embedding of [indicators.py] and [signals.py].

    Conventions of the embedding.
    - A pandas [DataFrame] of bars is a [list Bar] in row order; a column is
      the [list] of that field.  A [Series] that carries its own index (the
      oscillator inputs, the ATR argument of [find_order_block]) is a finite
      map from timestamps to values, reconciled with [reindex] and [ffill].
    - In the embedding of the engine Python floats are idealised: a finite
      float is an exact rational ([Q]), and the special values are kept
      apart ([Inf], [NaN]).  Bars carry finite values; derived series carry
      [fval].  Rounding, overflow and signed zeros are outside that model:
      it decides which path a call takes and which formula gives each
      field, not the last bit of a value.
    - Where a property turns on the last bit, the code is embedded a second
      time in double precision ([Binary64]: IEEE 754 binary64, round to
      nearest even, with NaN, infinities and signed zeros): [vwap], and the
      level lines of the LONG return.
    - Timestamps are integers, and index labels are unique: a series is a
      map, and a frame's computed column becomes one through [as_series]
      (pandas refuses to reindex a series with duplicate labels).  The
      session classifier lives in [sessions.py]; the engine takes it as a
      parameter.
    - The one exception the engine can raise on float data, [df.index[-1]]
      on an empty window, is the [IndexError] outcome. *)

From stdpp Require Import gmap strings list fin_maps.
From Stdlib Require Import QArith Qminmax Qabs Lqa Lia ZArith DecimalString.
From Stdlib Require SpecFloat.

Close Scope Q_scope.

(** ** Float values *)

Inductive fval : Type :=
  | Fin (q : Q)
  | Inf (negative : bool)
  | NaN.

Definition Qltb (x y : Q) : bool := negb (Qle_bool y x).

(** [np.isfinite] *)
Definition isfinite (v : fval) : bool :=
  match v with Fin _ => true | _ => false end.

(** IEEE comparisons: anything against [NaN] is [False]. *)
Definition fl_ltb (a b : fval) : bool :=
  match a, b with
  | Fin x, Fin y => Qltb x y
  | Fin _, Inf neg => negb neg
  | Inf neg, Fin _ => neg
  | Inf n1, Inf n2 => n1 && negb n2
  | _, _ => false
  end.

Definition fl_leb (a b : fval) : bool :=
  match a, b with
  | Fin x, Fin y => Qle_bool x y
  | Fin _, Inf neg => negb neg
  | Inf neg, Fin _ => neg
  | Inf n1, Inf n2 => n1 || negb n2
  | _, _ => false
  end.

Definition fl_gtb (a b : fval) : bool := fl_ltb b a.
Definition fl_geb (a b : fval) : bool := fl_leb b a.

(** ** Bars and pandas primitives *)

Record Bar : Type := mkBar {
  ts : Z;
  open : Q;
  high : Q;
  low : Q;
  close : Q;
  volume : Q
}.

Definition DataFrame : Type := list Bar.

(** [DataFrame.tail(n)] / [Series.tail(n)]: the last [n] rows for positive
    [n], nothing for [0], and all rows but the first [|n|] for negative [n]. *)
Definition tail {A : Type} (n : Z) (l : list A) : list A :=
  if (n =? 0)%Z then []
  else if (0 <? n)%Z then drop (length l - Z.to_nat n) l
  else drop (Z.to_nat (- n)) l.

(** [s.iloc[-1]]; [d] stands for the value on an empty series, where pandas
    raises.  The engine reads it only on a non-empty window. *)
Definition iloc_last {A : Type} (d : A) (l : list A) : A := List.last l d.

(** [s.iloc[i]] / [arr[i]] for [0 <= i]. *)
Definition iloc (l : list Q) (i : nat) : Q := nth i l 0%Q.
Definition iloc_fl (l : list fval) (i : nat) : fval := nth i l NaN.

(** [s.shift(k)]: values move [k] rows down, the top is filled with NaN. *)
Definition shift (k : nat) (l : list fval) : list fval :=
  take (length l) (replicate k NaN ++ l).

Fixpoint cumsum_from (acc : Q) (l : list Q) : list Q :=
  match l with
  | [] => []
  | x :: r => let a := (acc + x)%Q in a :: cumsum_from a r
  end.

(** [s.cumsum()] *)
Definition cumsum (l : list Q) : list Q := cumsum_from 0%Q l.

Definition Qsum (l : list Q) : Q := fold_right Qplus 0%Q l.

(** [s.min()] / [s.max()] of a series of finite values; pandas gives NaN on
    an empty series, the engine takes them on non-empty ones only. *)
Definition series_min (l : list Q) : Q :=
  match l with [] => 0%Q | x :: r => fold_left Qmin r x end.
Definition series_max (l : list Q) : Q :=
  match l with [] => 0%Q | x :: r => fold_left Qmax r x end.

(** The rows a rolling window of width [w] sees at row [i]. *)
Definition rolling_window (w : nat) (l : list Q) (i : nat) : list Q :=
  drop (S i - w) (take (S i) l).

(** [s.rolling(w, min_periods=mp).mean()]: the mean of the window where it
    holds at least [mp] observations and at least one, NaN elsewhere (so NaN
    on every row for a window of width 0). *)
Definition rolling_mean (w mp : nat) (l : list Q) : list fval :=
  (λ i, let win := rolling_window w l i in
        if decide (mp ≤ length win ∧ 0 < length win)
        then Fin (Qsum win / inject_Z (Z.of_nat (length win)))
        else NaN) <$> seq 0 (length l).

Fixpoint insert_sorted (x : Q) (l : list Q) : list Q :=
  match l with
  | [] => [x]
  | y :: r => if Qle_bool x y then x :: l else y :: insert_sorted x r
  end.

Definition sort (l : list Q) : list Q := fold_right insert_sorted [] l.

Definition median (l : list Q) : Q :=
  let s := sort l in
  let n := length s in
  if Nat.even n
  then ((iloc s (n / 2 - 1) + iloc s (n / 2)) / 2)%Q
  else iloc s (n / 2).

(** [s.rolling(w, min_periods=mp).median()], under the same rule. *)
Definition rolling_median (w mp : nat) (l : list Q) : list fval :=
  (λ i, let win := rolling_window w l i in
        if decide (mp ≤ length win ∧ 0 < length win)
        then Fin (median win) else NaN)
  <$> seq 0 (length l).

(** [s.reindex(idx)]: the value stored under each label, NaN where the
    series has none. *)
Definition reindex (s : gmap Z fval) (idx : list Z) : list fval :=
  (λ t, default NaN (s !! t)) <$> idx.

Fixpoint ffill_from (prev : fval) (l : list fval) : list fval :=
  match l with
  | [] => []
  | x :: r =>
      let v := match x with NaN => prev | _ => x end in
      v :: ffill_from v r
  end.

(** [s.ffill()]: a NaN takes the last value seen before it. *)
Definition ffill (l : list fval) : list fval := ffill_from NaN l.

(** A column computed from a frame, as a series indexed like the frame. *)
Definition as_series (df : DataFrame) (col : list fval) : gmap Z fval :=
  list_to_map (zip (ts <$> df) col).

(** ** indicators.py *)

Module Indicators.

Definition vwap (df : DataFrame) : list fval :=
  let tp := (λ b, (high b + low b + close b) / 3)%Q <$> df in
  let pv := zip_with Qmult tp (volume <$> df) in
  zip_with (λ p v, if Qeq_bool v 0 then NaN else Fin (p / v)%Q)
           (cumsum pv) (cumsum (volume <$> df)).

(** The row-wise maximum skips the NaN that [shift(1)] leaves in the first
    row, so the first true range is [|high - low|]. *)
Fixpoint true_range (prev_close : option Q) (df : DataFrame) : list Q :=
  match df with
  | [] => []
  | b :: r =>
      let hl := Qabs (high b - low b) in
      let tr := match prev_close with
                | None => hl
                | Some pc => Qmax (Qmax hl (Qabs (high b - pc)))
                                  (Qabs (low b - pc))
                end in
      tr :: true_range (Some (close b)) r
  end.

(** [period] is a natural number: pandas refuses a negative window. *)
Definition atr (df : DataFrame) (period : nat) : list fval :=
  rolling_mean period period (true_range None df).

Fixpoint ewm_from (alpha y : Q) (l : list Q) : list Q :=
  match l with
  | [] => []
  | x :: r =>
      let y' := ((1 - alpha) * y + alpha * x)%Q in
      y' :: ewm_from alpha y' r
  end.

(** [series.ewm(span=span, adjust=False).mean()] *)
Definition ema (series : list Q) (span : Z) : list Q :=
  match series with
  | [] => []
  | x0 :: r => x0 :: ewm_from (2 / (inject_Z span + 1))%Q x0 r
  end.

(** [s.iloc[i - left : i + right + 1]] *)
Definition swing_window (s : list Q) (left right i : nat) : list Q :=
  take (left + right + 1) (drop (i - left) s).

Definition rolling_swing_lows (s : list Q) (left right : nat) : list bool :=
  (λ i, if decide (left ≤ i ∧ i + right < length s)
        then Qeq_bool (iloc s i) (series_min (swing_window s left right i))
        else false) <$> seq 0 (length s).

Definition rolling_swing_highs (s : list Q) (left right : nat) : list bool :=
  (λ i, if decide (left ≤ i ∧ i + right < length s)
        then Qeq_bool (iloc s i) (series_max (swing_window s left right i))
        else false) <$> seq 0 (length s).

Definition Zone : Type := (Q * Q)%type.

Definition fvg_step (h l : list Q) (acc : option Zone * option Zone) (i : nat)
  : option Zone * option Zone :=
  let bull := if Qltb (iloc h (i - 2)) (iloc l i)
              then Some (iloc h (i - 2), iloc l i) else acc.1 in
  let bear := if Qltb (iloc h i) (iloc l (i - 2))
              then Some (iloc h i, iloc l (i - 2)) else acc.2 in
  (bull, bear).

Definition detect_fvg (df : DataFrame) : option Zone * option Zone :=
  if decide (length df < 3) then (None, None)
  else
    let h := high <$> df in
    let l := low <$> df in
    fold_left (fvg_step h l) (seq 2 (length df - 2)) (None, None).

(** [atr_i = at[i] if np.isfinite(at[i]) else None], then [if not atr_i]:
    only a finite, non-zero value survives. *)
Definition usable_atr (v : fval) : option Q :=
  match v with
  | Fin a => if Qeq_bool a 0 then None else Some a
  | _ => None
  end.

(** [range(i + 1, min(i + 4, len(df)))] *)
Definition followers (n i : nat) : list nat :=
  seq (i + 1) (Nat.min (i + 4) n - (i + 1)).

Definition displaced_up (df : DataFrame) (i : nat) (atr_i : Q) : bool :=
  let closes := close <$> df in
  let highs := high <$> df in
  existsb (λ j, Qltb (iloc highs i) (iloc closes j)
                && Qltb (1 * atr_i) (iloc closes j - iloc closes i))
          (followers (length df) i).

Definition displaced_down (df : DataFrame) (i : nat) (atr_i : Q) : bool :=
  let closes := close <$> df in
  let lows := low <$> df in
  existsb (λ j, Qltb (iloc closes j) (iloc lows i)
                && Qltb (1 * atr_i) (iloc closes i - iloc closes j))
          (followers (length df) i).

(** One turn of the outer loop: does candle [i] produce the return? *)
Definition ob_candidate (bull : bool) (df : DataFrame) (at_ : list fval)
    (i : nat) : bool :=
  let opens := open <$> df in
  let closes := close <$> df in
  (if bull then Qltb (iloc closes i) (iloc opens i)
   else Qltb (iloc opens i) (iloc closes i))
  && match usable_atr (iloc_fl at_ i) with
     | None => false
     | Some atr_i =>
         if bull then displaced_up df i atr_i else displaced_down df i atr_i
     end.

(** [for i in range(n - 1, -1, -1): if f(i): return i] *)
Fixpoint scan_down (f : nat → bool) (n : nat) : option nat :=
  match n with
  | O => None
  | S k => if f k then Some k else scan_down f k
  end.

(** The window and the reconciled ATR the scan runs on. *)
Definition ob_window (df : DataFrame) (lookback : Z) : DataFrame :=
  tail lookback df.
Definition ob_atr (df : DataFrame) (atr_series : gmap Z fval) (lookback : Z)
  : list fval :=
  ffill (reindex atr_series (ts <$> ob_window df lookback)).

(** Position of the candle the scan returns at, if any. *)
Definition find_order_block_pos (df : DataFrame) (atr_series : gmap Z fval)
    (side : string) (lookback : Z) : option nat :=
  if decide (length df < 10) then None
  else
    let w := ob_window df lookback in
    let at_ := ob_atr df atr_series lookback in
    (* range(len(df) - 4, -1, -1) *)
    scan_down (ob_candidate (String.eqb side "bull"%string) w at_)
              (length w - 3).

Definition ob_zone (bull : bool) (w : DataFrame) (i : nat) : Q * Q * Z :=
  let a := if bull then iloc (low <$> w) i else iloc (open <$> w) i in
  let b := if bull then iloc (open <$> w) i else iloc (high <$> w) i in
  (Qmin a b, Qmax a b, nth i (ts <$> w) 0%Z).

(** [(None, None, None)] is [None]. *)
Definition find_order_block (df : DataFrame) (atr_series : gmap Z fval)
    (side : string) (lookback : Z) : option (Q * Q * Z) :=
  ob_zone (String.eqb side "bull"%string) (ob_window df lookback)
    <$> find_order_block_pos df atr_series side lookback.

Definition in_zone (price zone_low zone_high buffer : Q) : bool :=
  let lo := (zone_low - buffer)%Q in
  let hi := (zone_high + buffer)%Q in
  Qle_bool lo price && Qle_bool price hi.

End Indicators.

(** ** signals.py *)

Module Signals.

Import Indicators.

Definition calc_vwap := Indicators.vwap.
Definition calc_atr := Indicators.atr.
Definition calc_ema := Indicators.ema.

(** Values stored in the [extras] diagnostics dictionary. *)
Inductive ExtraVal : Type :=
  | EFloat (q : Q)
  | EBool (b : bool)
  | EZone (z : option Zone)
  | EBlock (z : option (Q * Q * Z)).

Record SignalResult : Type := mkSignalResult {
  symbol : string;
  bias : string;
  setup_score : Z;
  reason : string;
  entry : option Q;
  stop : option Q;
  target_1r : option Q;
  target_2r : option Q;
  last_price : option Q;
  timestamp : option Z;
  session : string;
  extras : gmap string ExtraVal
}.

Record Preset : Type := mkPreset {
  min_actionable_score : Z;
  vol_multiplier : Q;
  require_volume : Z;
  require_macd_turn : Z;
  require_vwap_event : Z;
  require_rsi_event : Z
}.

#[export] Instance Preset_inhabited : Inhabited Preset :=
  populate (mkPreset 0 0 0 0 0 0).

Definition PRESETS : gmap string Preset :=
  <["Fast scalp"%string := mkPreset 70 1.15 0 1 1 1]>
  (<["Cleaner signals"%string := mkPreset 80 1.35 1 1 1 1]> ∅).

(** What the call raises instead of returning. *)
Inductive outcome : Type :=
  | IndexError
  | Return (r : SignalResult).

(** [sep.join(l)] *)
Fixpoint join (sep : string) (l : list string) : string :=
  match l with
  | [] => ""
  | [x] => x
  | x :: r => x +:+ sep +:+ join sep r
  end.

(** [str(n)] for an integer, as an f-string prints it. *)
Definition str_int (n : Z) : string := NilZero.string_of_int (Z.to_int n).

(** [points += w; reasons.append(why)] under [if c]. *)
Definition award (c : bool) (w : Z) (why : string) (acc : Z * list string)
  : Z * list string :=
  if c then ((acc.1 + w)%Z, acc.2 ++ [why]) else acc.

(** The locals of [compute_scalp_signal] between the session gate and the
    scoring block (source lines 106 to 173). *)
Record Locals : Type := mkLocals {
  was_below_vwap : bool;
  reclaim_vwap : bool;
  was_above_vwap : bool;
  reject_vwap : bool;
  rsi14 : fval;
  rsi_snap : bool;
  rsi_downshift : bool;
  macd_turn_up : bool;
  macd_turn_down : bool;
  vol_ok : bool;
  recent_swing_low : Q;
  recent_swing_high : Q;
  atr_last : Q;
  buffer : Q;
  trend_long_ok : bool;
  trend_short_ok : bool;
  prior_swing_high : Q;
  prior_swing_low : Q;
  bull_sweep : bool;
  bear_sweep : bool;
  bull_fvg : option Zone;
  bear_fvg : option Zone;
  ob_bull : option (Q * Q * Z);
  ob_bear : option (Q * Q * Z);
  bull_ob_retest : bool;
  bear_ob_retest : bool;
  displacement : bool;
  higher_low : bool;
  lower_high : bool;
  ema20_last : Q;
  ema50_last : Q
}.

(** The values under a boolean mask: [df.loc[mask, col]]. *)
Definition masked (mask : list bool) (col : list Q) : list Q :=
  (filter (λ p, p.1 = true) (zip mask col)).*2.

Definition retest (price : Q) (ob : option (Q * Q * Z)) (buffer : Q) : bool :=
  match ob with
  | Some (zone_low, zone_high, _) => in_zone price zone_low zone_high buffer
  | None => false
  end.

(** [df] is the evaluation window with its [vwap], [atr14], [ema20] and
    [ema50] columns; the oscillators are already reconciled onto it. *)
Definition analyse (cfg : Preset) (df : DataFrame)
    (vwap atr14 : list fval) (ema20 ema50 : list Q)
    (rsi_fast rsi_slow macd_hist : list fval) : Locals :=
  let close_ := close <$> df in
  let closef := Fin <$> close_ in
  let vol := volume <$> df in
  let lows := low <$> df in
  let highs := high <$> df in
  let last_price := iloc_last 0%Q close_ in
  let last_of := iloc_last NaN in
  (* BASIC events *)
  let was_below_vwap :=
    fl_ltb (last_of (shift 3 closef)) (last_of (shift 3 vwap))
    || fl_ltb (last_of (shift 5 closef)) (last_of (shift 5 vwap)) in
  let reclaim_vwap :=
    fl_gtb (last_of closef) (last_of vwap)
    && fl_leb (last_of (shift 1 closef)) (last_of (shift 1 vwap)) in
  let was_above_vwap :=
    fl_gtb (last_of (shift 3 closef)) (last_of (shift 3 vwap))
    || fl_gtb (last_of (shift 5 closef)) (last_of (shift 5 vwap)) in
  let reject_vwap :=
    fl_ltb (last_of closef) (last_of vwap)
    && fl_geb (last_of (shift 1 closef)) (last_of (shift 1 vwap)) in
  let rsi5 := last_of rsi_fast in
  let rsi14 := last_of rsi_slow in
  let rsi5_prev := last_of (shift 1 rsi_fast) in
  let rsi_snap :=
    (fl_geb rsi5 (Fin 30) && fl_ltb rsi5_prev (Fin 30))
    || (fl_geb rsi5 (Fin 25) && fl_ltb rsi5_prev (Fin 25)) in
  let rsi_downshift :=
    (fl_leb rsi5 (Fin 70) && fl_gtb rsi5_prev (Fin 70))
    || (fl_leb rsi5 (Fin 75) && fl_gtb rsi5_prev (Fin 75)) in
  let macd0 := last_of macd_hist in
  let macd1 := last_of (shift 1 macd_hist) in
  let macd2 := last_of (shift 2 macd_hist) in
  let macd_turn_up := fl_gtb macd0 macd1 && fl_gtb macd1 macd2 in
  let macd_turn_down := fl_ltb macd0 macd1 && fl_ltb macd1 macd2 in
  let vol_med := last_of (rolling_median 30 10 vol) in
  let vol_ok :=
    match vol_med with
    | Fin m => Qle_bool (vol_multiplier cfg * m) (iloc_last 0%Q vol)
    | _ => false
    end in
  (* Swings for stops + liquidity reference *)
  let swing_low_mask := rolling_swing_lows lows 3 3 in
  let recent_swing_lows := tail 6 (masked swing_low_mask lows) in
  let recent_swing_low :=
    match recent_swing_lows with
    | [] => series_min (tail 12 lows)
    | _ => iloc_last 0%Q recent_swing_lows
    end in
  let swing_high_mask := rolling_swing_highs highs 3 3 in
  let recent_swing_highs := tail 6 (masked swing_high_mask highs) in
  let recent_swing_high :=
    match recent_swing_highs with
    | [] => series_max (tail 12 highs)
    | _ => iloc_last 0%Q recent_swing_highs
    end in
  let atr_last :=
    match last_of atr14 with Fin a => a | _ => 0%Q end in
  let buffer :=
    if Qeq_bool atr_last 0 then 0%Q else (0.25 * atr_last)%Q in
  (* Pro diagnostics *)
  let e20 := iloc_last 0%Q ema20 in
  let e50 := iloc_last 0%Q ema50 in
  let trend_long_ok := Qle_bool e20 last_price && Qle_bool e50 e20 in
  let trend_short_ok := Qle_bool last_price e20 && Qle_bool e20 e50 in
  let prior_swing_high :=
    match recent_swing_highs with
    | [] => series_max (tail 30 highs)
    | _ => iloc_last 0%Q recent_swing_highs
    end in
  let prior_swing_low :=
    match recent_swing_lows with
    | [] => series_min (tail 30 lows)
    | _ => iloc_last 0%Q recent_swing_lows
    end in
  let bull_sweep :=
    Qltb (iloc_last 0%Q lows) prior_swing_low
    && Qltb prior_swing_low last_price in
  let bear_sweep :=
    Qltb prior_swing_high (iloc_last 0%Q highs)
    && Qltb last_price prior_swing_high in
  let fvg := detect_fvg (tail 60 df) in
  let ob_bull := find_order_block df (as_series df atr14) "bull" 35 in
  let ob_bear := find_order_block df (as_series df atr14) "bear" 35 in
  let bull_ob_retest := retest last_price ob_bull buffer in
  let bear_ob_retest := retest last_price ob_bear buffer in
  let last_range := (iloc_last 0%Q highs - iloc_last 0%Q lows)%Q in
  let displacement :=
    negb (Qeq_bool atr_last 0) && Qle_bool (1.5 * atr_last) last_range in
  {| was_below_vwap := was_below_vwap;
     reclaim_vwap := reclaim_vwap;
     was_above_vwap := was_above_vwap;
     reject_vwap := reject_vwap;
     rsi14 := rsi14;
     rsi_snap := rsi_snap;
     rsi_downshift := rsi_downshift;
     macd_turn_up := macd_turn_up;
     macd_turn_down := macd_turn_down;
     vol_ok := vol_ok;
     recent_swing_low := recent_swing_low;
     recent_swing_high := recent_swing_high;
     atr_last := atr_last;
     buffer := buffer;
     trend_long_ok := trend_long_ok;
     trend_short_ok := trend_short_ok;
     prior_swing_high := prior_swing_high;
     prior_swing_low := prior_swing_low;
     bull_sweep := bull_sweep;
     bear_sweep := bear_sweep;
     bull_fvg := fvg.1;
     bear_fvg := fvg.2;
     ob_bull := ob_bull;
     ob_bear := ob_bear;
     bull_ob_retest := bull_ob_retest;
     bear_ob_retest := bear_ob_retest;
     displacement := displacement;
     higher_low :=
       Qltb (series_min (tail 12 lows)) (iloc_last 0%Q (tail 12 lows));
     lower_high :=
       Qltb (iloc_last 0%Q (tail 12 highs)) (series_max (tail 12 highs));
     ema20_last := e20;
     ema50_last := e50 |}.

(** The [extras] dictionary as filled on lines 137 to 173. *)
Definition extras_of (L : Locals) : gmap string ExtraVal :=
  <["atr14"%string := EFloat (atr_last L)]>
  (<["displacement"%string := EBool (displacement L)]>
  (<["bear_ob_retest"%string := EBool (bear_ob_retest L)]>
  (<["bull_ob_retest"%string := EBool (bull_ob_retest L)]>
  (<["bear_ob"%string := EBlock (ob_bear L)]>
  (<["bull_ob"%string := EBlock (ob_bull L)]>
  (<["bear_fvg"%string := EZone (bear_fvg L)]>
  (<["bull_fvg"%string := EZone (bull_fvg L)]>
  (<["bear_liquidity_sweep"%string := EBool (bear_sweep L)]>
  (<["bull_liquidity_sweep"%string := EBool (bull_sweep L)]>
  (<["prior_swing_low"%string := EFloat (prior_swing_low L)]>
  (<["prior_swing_high"%string := EFloat (prior_swing_high L)]>
  (<["trend_short_ok"%string := EBool (trend_short_ok L)]>
  (<["trend_long_ok"%string := EBool (trend_long_ok L)]>
  (<["ema50"%string := EFloat (ema50_last L)]>
  (<["ema20"%string := EFloat (ema20_last L)]> ∅))))))))))))))).

Definition vwap_long (L : Locals) : bool := was_below_vwap L && reclaim_vwap L.
Definition vwap_short (L : Locals) : bool := was_above_vwap L && reject_vwap L.

(** Lines 176 to 187 and the long half of 202 to 219: the long total and
    its reasons. *)
Definition long_score (pro_mode : bool) (L : Locals) : Z * list string :=
  let s := (0%Z, []) in
  let s := award (vwap_long L) 35 "VWAP reclaim" s in
  let s := award (rsi_snap L && fl_ltb (rsi14 L) (Fin 60)) 20
                 "RSI-5 snapback (RSI-14 ok)" s in
  let s := award (macd_turn_up L) 20 "MACD hist turning up" s in
  let s := award (vol_ok L) 15 "Volume confirmation" s in
  let s := award (higher_low L) 10 "Higher-low micro structure" s in
  if pro_mode then
    let s := award (bull_sweep L) 20 "Liquidity sweep (low)" s in
    let s := award (bull_ob_retest L) 15 "Bullish order block retest" s in
    let s := award (bool_decide (bull_fvg L ≠ None)) 10
                   "Bullish FVG present" s in
    let s := if displacement L then ((s.1 + 5)%Z, s.2) else s in
    if negb (trend_long_ok L) && negb (vwap_long L)
    then (Z.max 0 (s.1 - 15), s.2) else s
  else s.

Definition short_score (pro_mode : bool) (L : Locals) : Z * list string :=
  let s := (0%Z, []) in
  let s := award (vwap_short L) 35 "VWAP rejection" s in
  let s := award (rsi_downshift L && fl_gtb (rsi14 L) (Fin 40)) 20
                 "RSI-5 downshift (RSI-14 ok)" s in
  let s := award (macd_turn_down L) 20 "MACD hist turning down" s in
  let s := award (vol_ok L) 15 "Volume confirmation" s in
  let s := award (lower_high L) 10 "Lower-high micro structure" s in
  if pro_mode then
    let s := award (bear_sweep L) 20 "Liquidity sweep (high)" s in
    let s := award (bear_ob_retest L) 15 "Bearish order block retest" s in
    let s := award (bool_decide (bear_fvg L ≠ None)) 10
                   "Bearish FVG present" s in
    let s := if displacement L then ((s.1 + 5)%Z, s.2) else s in
    if negb (trend_short_ok L) && negb (vwap_short L)
    then (Z.max 0 (s.1 - 15), s.2) else s
  else s.

(** Lines 224 to 238: the reason of the first requirement that is not met. *)
Definition requirements (cfg : Preset) (pro_mode : bool) (L : Locals)
  : option string :=
  if (require_vwap_event cfg =? 1)%Z && negb (vwap_long L || vwap_short L)
  then Some "No VWAP reclaim/rejection event"%string
  else if (require_rsi_event cfg =? 1)%Z
          && negb (rsi_snap L || rsi_downshift L)
  then Some "No RSI-5 snap/downshift event"%string
  else if (require_macd_turn cfg =? 1)%Z
          && negb (macd_turn_up L || macd_turn_down L)
  then Some "No MACD histogram turn event"%string
  else if (require_volume cfg =? 1)%Z && negb (vol_ok L)
  then Some "No volume confirmation"%string
  else if pro_mode
          && negb (bull_sweep L || bear_sweep L
                   || bull_ob_retest L || bear_ob_retest L)
  then Some "Pro mode: no liquidity sweep / OB retest trigger"%string
  else None.

Definition neutral_reason (lp sp : Z * list string) : string :=
  "LongScore=" +:+ str_int lp.1 +:+ " (" +:+ join ", " lp.2
  +:+ "); ShortScore=" +:+ str_int sp.1 +:+ " (" +:+ join ", " sp.2 +:+ ")".

Section Engine.

(** [sessions.classify_session], not part of the engine. *)
Variable classify_session : Z → string.

(** [PRESETS.get(mode, PRESETS["Cleaner signals"])] *)
Definition preset_of (mode : string) : Preset :=
  default (PRESETS !!! "Cleaner signals"%string) (PRESETS !! mode).

(** The frame after lines 76 to 84. *)
Definition window (ohlcv : DataFrame) (lookback_bars : Z) : DataFrame :=
  tail lookback_bars ohlcv.

Definition locals_of (cfg : Preset) (df : DataFrame)
    (rsi_fast rsi_slow macd_hist : gmap Z fval) : Locals :=
  analyse cfg df (calc_vwap df) (calc_atr df 14)
    (calc_ema (close <$> df) 20) (calc_ema (close <$> df) 50)
    (ffill (reindex rsi_fast (ts <$> df)))
    (ffill (reindex rsi_slow (ts <$> df)))
    (ffill (reindex macd_hist (ts <$> df))).

Definition session_allowed (session : string)
    (allow_opening allow_midday allow_power : bool) : bool :=
  (String.eqb session "OPENING" && allow_opening)
  || (String.eqb session "MIDDAY" && allow_midday)
  || (String.eqb session "POWER" && allow_power).

Definition compute_scalp_signal (symbol : string) (ohlcv : DataFrame)
    (rsi_fast rsi_slow macd_hist : gmap Z fval)
    (mode : string)
    (pro_mode allow_opening allow_midday allow_power : bool)
    (lookback_bars : Z) : outcome :=
  if decide (length ohlcv < 60) then
    Return (mkSignalResult symbol "NEUTRAL" 0 "Not enough data"
              None None None None None None "OFF" ∅)
  else
    let cfg := preset_of mode in
    let df := window ohlcv lookback_bars in
    match last (ts <$> df) with
    | None => IndexError
    | Some last_ts =>
        let session := classify_session last_ts in
        let allowed :=
          session_allowed session allow_opening allow_midday allow_power in
        let last_price := iloc_last 0%Q (close <$> df) in
        if negb allowed then
          Return (mkSignalResult symbol "NEUTRAL" 0
                    ("Filtered by time-of-day (" +:+ session +:+ ")")
                    None None None None (Some last_price) (Some last_ts)
                    session ∅)
        else
          let L := locals_of cfg df rsi_fast rsi_slow macd_hist in
          let lp := long_score pro_mode L in
          let sp := short_score pro_mode L in
          let neutral why :=
            Return (mkSignalResult symbol "NEUTRAL" (Z.max lp.1 sp.1) why
                      None None None None (Some last_price) (Some last_ts)
                      session (extras_of L)) in
          match requirements cfg pro_mode L with
          | Some why => neutral why
          | None =>
              let min_score := min_actionable_score cfg in
              if (min_score <=? lp.1)%Z && (sp.1 <? lp.1)%Z then
                let entry := last_price in
                let stop :=
                  Qmin (recent_swing_low L)
                       (last_price - Qmax (atr_last L) 0 * 0.8) in
                let risk := Qmax (entry - stop) 0.01 in
                Return (mkSignalResult symbol "LONG" (Z.min 100 lp.1)
                          (join ", " (take 6 lp.2))
                          (Some entry) (Some stop)
                          (Some (entry + risk)%Q) (Some (entry + 2 * risk)%Q)
                          (Some last_price) (Some last_ts) session
                          (extras_of L))
              else if (min_score <=? sp.1)%Z && (lp.1 <? sp.1)%Z then
                let entry := last_price in
                let stop :=
                  Qmax (recent_swing_high L)
                       (last_price + Qmax (atr_last L) 0 * 0.8) in
                let risk := Qmax (stop - entry) 0.01 in
                Return (mkSignalResult symbol "SHORT" (Z.min 100 sp.1)
                          (join ", " (take 6 sp.2))
                          (Some entry) (Some stop)
                          (Some (entry - risk)%Q) (Some (entry - 2 * risk)%Q)
                          (Some last_price) (Some last_ts) session
                          (extras_of L))
              else neutral (neutral_reason lp sp)
          end
    end.

End Engine.

End Signals.

(** ** Double precision

    The lines of the code whose result depends on rounding, in the
    arithmetic the interpreter runs them in.  All columns are float64. *)

Module Binary64.

Import SpecFloat.

(** An IEEE 754 binary64 value, as Python's [float] and numpy's [float64]
    hold it; the operations round to nearest, ties to even. *)
Definition f64 : Type := spec_float.
Definition prec : Z := 53.
Definition emax : Z := 1024.

Definition fadd : f64 → f64 → f64 := SFadd prec emax.
Definition fsub : f64 → f64 → f64 := SFsub prec emax.
Definition fmul : f64 → f64 → f64 := SFmul prec emax.
Definition fdiv : f64 → f64 → f64 := SFdiv prec emax.
Definition fltb : f64 → f64 → bool := SFltb.
Definition feqb : f64 → f64 → bool := SFeqb.

Definition nan : f64 := S754_nan.
Definition isnan (x : f64) : bool :=
  match x with S754_nan => true | _ => false end.

(** The double of an integer literal, and of a decimal literal [n/d] with
    [n] and [d] below 2^53: the correctly rounded quotient is the double
    nearest to the decimal, which is what the literal denotes. *)
Definition of_int (z : Z) : f64 := binary_normalize prec emax z 0 false.
Definition dec (n d : Z) : f64 := fdiv (of_int n) (of_int d).

(** Python's [min(a, b)] and [max(a, b)]: the first argument unless the
    second is strictly smaller (larger). *)
Definition py_min (a b : f64) : f64 := if fltb b a then b else a.
Definition py_max (a b : f64) : f64 := if fltb a b then b else a.

Record Bar : Type := mkBar {
  ts : Z; open : f64; high : f64; low : f64; close : f64; volume : f64
}.

(** [np.cumsum]: the first value, then one rounded addition per row. *)
Fixpoint accumulate (acc : f64) (l : list f64) : list f64 :=
  match l with
  | [] => []
  | x :: r => let s := fadd acc x in s :: accumulate s r
  end.
Definition np_cumsum (l : list f64) : list f64 :=
  match l with [] => [] | x :: r => x :: accumulate x r end.

(** [s.cumsum()]: pandas sums with the NaN entries taken as 0.0 and puts
    NaN back at their rows. *)
Definition cumsum (l : list f64) : list f64 :=
  zip_with (λ x s, if isnan x then nan else s) l
    (np_cumsum ((λ x, if isnan x then of_int 0 else x) <$> l)).

(** [s.replace(0, np.nan)] *)
Definition replace_zero (x : f64) : f64 :=
  if feqb x (of_int 0) then nan else x.

(** indicators.py, [vwap], lines 7-10. *)
Definition tp (df : list Bar) : list f64 :=
  (λ b, fdiv (fadd (fadd (high b) (low b)) (close b)) (of_int 3)) <$> df.
Definition pv (df : list Bar) : list f64 :=
  zip_with fmul (tp df) (volume <$> df).
Definition vwap (df : list Bar) : list f64 :=
  zip_with fdiv (cumsum (pv df))
    (replace_zero <$> cumsum (volume <$> df)).

(** signals.py, lines 243-246: the levels of a LONG return, as
    (entry, stop, target_1r, target_2r). *)
Definition long_levels (last_price recent_swing_low atr_last : f64)
  : f64 * f64 * f64 * f64 :=
  let entry := last_price in
  let stop := py_min recent_swing_low
                (fsub last_price
                   (fmul (py_max atr_last (of_int 0)) (dec 8 10))) in
  let risk := py_max (fsub entry stop) (dec 1 100) in
  (entry, stop, fadd entry risk, fadd entry (fmul (of_int 2) risk)).

End Binary64.

(** ** app.py: in-app alert bookkeeping *)

Module App.

Import Signals.

(** One alert dictionary (lines 73 to 91).  A price the result does not
    carry is [None]; the results table shows it as a missing value. *)
Record Alert : Type := mkAlert {
  a_ts_unix : Q;
  a_time : string;
  a_symbol : string;
  a_bias : string;
  a_score : Z;
  a_session : string;
  a_last : option Q;
  a_entry : option Q;
  a_stop : option Q;
  a_t1 : option Q;
  a_t2 : option Q;
  a_why : string;
  a_as_of : option string;
  a_mode : string;
  a_interval : string;
  a_pro_mode : bool;
  a_extras : gmap string ExtraVal
}.

(** [st.session_state]: the stored alerts, newest first, and the time of
    the last alert per ticker. *)
Record SessionState : Type := mkSessionState {
  alerts : list Alert;
  last_alert_ts : gmap string Q
}.

(** [l[:n]] *)
Definition slice_to {A : Type} (n : Z) (l : list A) : list A :=
  if (n <? 0)%Z then take (length l - Z.to_nat (- n)) l
  else take (Z.to_nat n) l.

Definition can_alert (st : SessionState) (symbol : string) (now_ts : Q)
    (cooldown_min : Z) : bool :=
  match last_alert_ts st !! symbol with
  | None => true
  | Some last => Qle_bool (inject_Z cooldown_min * 60) (now_ts - last)
  end.

Section Capture.

(** Readings and settings the page takes from outside: the clock and its
    label at the i-th turn of the capture loop, the printer of timestamps,
    and the sidebar's mode, interval, pro-mode switch and alert limits. *)
Variable clock : nat → Q.
Variable now_label : nat → string.
Variable show_timestamp : Z → string.
Variables mode interval : string.
Variable pro_mode : bool.
Variable max_alerts_kept : Z.
Variable cooldown_minutes : Z.
Variable alert_threshold : Z.
Variable capture_alerts : bool.

(** The row of the results table (lines 201 to 214) is the result itself;
    [add_in_app_alert] reads it into an alert, puts it first and cuts the
    list to [max_alerts_kept]. *)
Definition make_alert (turn : nat) (row : SignalResult) : Alert :=
    {| a_ts_unix := clock turn;
       a_time := now_label turn;
       a_symbol := Signals.symbol row;
       a_bias := bias row;
       a_score := setup_score row;
       a_session := session row;
       a_last := last_price row;
       a_entry := entry row;
       a_stop := stop row;
       a_t1 := target_1r row;
       a_t2 := target_2r row;
       a_why := reason row;
       a_as_of := show_timestamp <$> timestamp row;
       a_mode := mode;
       a_interval := interval;
       a_pro_mode := pro_mode;
       a_extras := extras row |}.

Definition add_in_app_alert (turn : nat) (row : SignalResult)
    (st : SessionState) : SessionState :=
  let alert := make_alert turn row in
  {| alerts := slice_to max_alerts_kept (alert :: alerts st);
     last_alert_ts := last_alert_ts st |}.

Definition directional (r : SignalResult) : bool :=
  String.eqb (bias r) "LONG" || String.eqb (bias r) "SHORT".

(** [df.loc[df["Symbol"] == symbol].iloc[0]]: the first row of the table
    with that symbol. *)
Definition first_row (results : list SignalResult) (r : SignalResult)
  : SignalResult :=
  default r (List.find (λ x, String.eqb (Signals.symbol x)
                                        (Signals.symbol r)) results).

(** One turn of the loop on lines 231 to 236. *)
Definition capture_step (results : list SignalResult) (now : Q) (turn : nat)
    (r : SignalResult) (st : SessionState) : SessionState :=
  if directional r && (alert_threshold <=? setup_score r)%Z then
    if can_alert st (Signals.symbol r) now cooldown_minutes then
      let st' := add_in_app_alert turn (first_row results r) st in
      {| alerts := alerts st';
         last_alert_ts := <[Signals.symbol r := now]> (last_alert_ts st') |}
    else st
  else st.

Fixpoint capture_from (results : list SignalResult) (now : Q) (turn : nat)
    (todo : list SignalResult) (st : SessionState) : SessionState :=
  match todo with
  | [] => st
  | r :: rest =>
      capture_from results now (S turn) rest
        (capture_step results now turn r st)
  end.

(** Lines 229 to 236. *)
Definition capture (results : list SignalResult) (now : Q)
    (st : SessionState) : SessionState :=
  if capture_alerts then capture_from results now 0 results st else st.

End Capture.

End App.

(** ** Sample inputs *)

Module Samples.

Import Indicators Signals.

(** A quiet bar: open = close = 100, range [100, 101], volume 1000. *)
Definition calm (t : Z) : Bar := mkBar t 100 101 100 100 1000.

(** Sixty one-step bars: 58 quiet ones, a bar that dips to 90, and a final
    bar that undercuts 100, closes at 102 and trades double volume. *)
Definition bars60 : DataFrame :=
  ((λ i, calm (Z.of_nat i)) <$> seq 0 58)
  ++ [mkBar 58 100 101 90 100 1000; mkBar 59 100 103 95 102 2000].

(** An oscillator that sits at [v] on every bar. *)
Definition flat (v : Q) : gmap Z fval :=
  list_to_map ((λ i, (Z.of_nat i, Fin v)) <$> seq 0 60).

(** A MACD histogram observed on the last three bars only, rising. *)
Definition macd_rising : gmap Z fval :=
  <[57%Z := Fin 1]> (<[58%Z := Fin 2]> (<[59%Z := Fin 3]> ∅)).

(** A fast RSI that crosses 25 and 30 upward on the final bar. *)
Definition rsi_crossing : gmap Z fval :=
  <[58%Z := Fin 24]> (<[59%Z := Fin 31]> ∅).

Definition always (label : string) (_ : Z) : string := label.

(** Ten bars around 10 with one down candle (bar 5) that the next close
    takes out by 0.1 while travelling 1.6 from the candle's close. *)
Definition quiet10 (t : Z) : Bar := mkBar t 10 10.5 9.5 10 100.
Definition bars10 : DataFrame :=
  ((λ i, quiet10 (Z.of_nat i)) <$> seq 0 5)
  ++ [mkBar 5 10 10.5 8.5 9 100; mkBar 6 9 10.7 9 10.6 100]
  ++ ((λ i, quiet10 (Z.of_nat i)) <$> seq 7 3).

(** An ATR series worth 1 on each of those ten bars. *)
Definition atr_one : gmap Z fval :=
  list_to_map ((λ i, (Z.of_nat i, Fin 1)) <$> seq 0 10).

(** What the engine returns on [bars60] looked at through a 13-bar window,
    with the crossing RSI, under "Cleaner signals" in an allowed session. *)
Definition long_result : Signals.SignalResult :=
  mkSignalResult "X" "LONG" 100
    "VWAP reclaim, RSI-5 snapback (RSI-14 ok), MACD hist turning up, Volume confirmation, Higher-low micro structure"
    (Some 102%Q) (Some 100%Q) (Some (102 + 2)%Q) (Some (102 + 2 * 2)%Q)
    (Some 102%Q) (Some 59%Z) "OPENING"
    (extras_of (locals_of (preset_of "Cleaner signals")
                  (window bars60 13) rsi_crossing (flat 50) macd_rising)).

(** What the engine returns on [bars60] in pro mode when the fast RSI
    never crosses a level. *)
Definition gated_result : Signals.SignalResult :=
  mkSignalResult "X" "NEUTRAL" 105 "No RSI-5 snap/downshift event"
    None None None None (Some 102%Q) (Some 59%Z) "OPENING"
    (extras_of (locals_of (preset_of "Cleaner signals")
                  (window bars60 180) (flat 50) (flat 50) macd_rising)).

(** A single bar whose close lies above its high. *)
Definition stray_close : DataFrame := [mkBar 0 1 1 1 4 1].



(** A three-value series. *)
Definition ramp : list Q := [1%Q; 3%Q; 2%Q].

(** Session states: nothing stored yet, and ticker X alerted at time 1000. *)
Definition fresh_state : App.SessionState := App.mkSessionState [] ∅.
Definition cooling_state : App.SessionState :=
  App.mkSessionState [] (<["X"%string := 1000%Q]> ∅).

(** Three bars, the third trading wholly above the first. *)
Definition gapped : DataFrame :=
  [mkBar 0 100 101 99 100 10; mkBar 1 101 103 100 102 10;
   mkBar 2 103 104 102 103 10].

End Samples.

(** * Vocabulary of the properties *)

Import Indicators Signals.

(** What the sufficiency gate is said to return. *)
Definition insufficient_as_stated (r : SignalResult) : Prop :=
  bias r = "NEUTRAL"%string ∧ setup_score r = 0%Z
  ∧ reason r = "insufficient data"%string
  ∧ entry r = None ∧ stop r = None
  ∧ target_1r r = None ∧ target_2r r = None.


(** ATR14 at the final bar of a frame, and the value the engine works
    with: the ATR where it is finite, zero where it is not. *)
Definition atr14_last (df : DataFrame) : fval :=
  iloc_last NaN (calc_atr df 14).
Definition atr_or_zero (df : DataFrame) : Q :=
  match atr14_last df with Fin a => a | _ => 0%Q end.

(** Level derivation for a volatility term [A]. *)
Definition long_levels (A : Q) (final : Bar) (L : Locals) (r : SignalResult)
  : Prop :=
  ∃ s t1 t2,
    entry r = Some (close final) ∧ stop r = Some s
    ∧ target_1r r = Some t1 ∧ target_2r r = Some t2
    ∧ (s == Qmin (recent_swing_low L) (close final - 0.8 * A))%Q
    ∧ (t1 == close final + Qmax (close final - s) 0.01)%Q
    ∧ (t2 == close final + 2 * Qmax (close final - s) 0.01)%Q.

Definition short_levels (A : Q) (final : Bar) (L : Locals) (r : SignalResult)
  : Prop :=
  ∃ s t1 t2,
    entry r = Some (close final) ∧ stop r = Some s
    ∧ target_1r r = Some t1 ∧ target_2r r = Some t2
    ∧ (s == Qmax (recent_swing_high L) (close final + 0.8 * A))%Q
    ∧ (t1 == close final - Qmax (s - close final) 0.01)%Q
    ∧ (t2 == close final - 2 * Qmax (s - close final) 0.01)%Q.

(** The levels as the specification words them: with ATR14 at the final
    bar itself. *)
Definition levels_as_stated (df : DataFrame) (L : Locals) (r : SignalResult)
  : Prop :=
  ∃ final a,
    last df = Some final ∧ atr14_last df = Fin a
    ∧ (bias r = "LONG"%string → long_levels a final L r)
    ∧ (bias r = "SHORT"%string → short_levels a final L r).

(** The typical price of a bar, and the quantities VWAP is compared with
    at row [i]: volume traded, lowest low and highest high so far. *)
Definition typical_price (b : Bar) : Q := ((high b + low b + close b) / 3)%Q.
Definition vwap_at (df : DataFrame) (i : nat) : fval := iloc_fl (vwap df) i.
Definition cum_volume (df : DataFrame) (i : nat) : Q :=
  Qsum (volume <$> take (S i) df).
Definition lowest_low (df : DataFrame) (i : nat) : Q :=
  series_min (low <$> take (S i) df).
Definition highest_high (df : DataFrame) (i : nat) : Q :=
  series_max (high <$> take (S i) df).

(** VWAP is undefined exactly where no volume has traded yet, and lies
    between the lowest low and the highest high seen so far elsewhere. *)
Definition vwap_bounded (df : DataFrame) : Prop :=
  ∀ i, i < length df →
    (vwap_at df i = NaN ↔ (cum_volume df i == 0)%Q)
    ∧ ∀ x, vwap_at df i = Fin x →
           (lowest_low df i <= x ∧ x <= highest_high df i)%Q.

(** A bar whose close lies within its range. *)
Definition close_in_range (b : Bar) : Prop :=
  (low b <= close b ∧ close b <= high b)%Q.

(** The candle at row [i] has the colour the search looks for. *)
Definition opposite_colour (bull : bool) (w : DataFrame) (i : nat) : Prop :=
  if bull then (iloc (close <$> w) i < iloc (open <$> w) i)%Q
  else (iloc (open <$> w) i < iloc (close <$> w) i)%Q.

(** The close of row [j] lies beyond the extreme of candle [i] and more
    than [a] away from that candle's close. *)
Definition breaks_out (bull : bool) (w : DataFrame) (i j : nat) (a : Q)
  : Prop :=
  if bull
  then (iloc (high <$> w) i < iloc (close <$> w) j
        ∧ a < iloc (close <$> w) j - iloc (close <$> w) i)%Q
  else (iloc (close <$> w) j < iloc (low <$> w) i
        ∧ a < iloc (close <$> w) i - iloc (close <$> w) j)%Q.

(** Candle [i] has the colour, a finite non-zero ATR, and a break-out
    within the next one to three rows. *)
Definition qualifies (bull : bool) (w : DataFrame) (at_ : list fval)
    (i : nat) : Prop :=
  opposite_colour bull w i
  ∧ ∃ a, iloc_fl at_ i = Fin a ∧ ¬ (a == 0)%Q
         ∧ ∃ j, i < j ≤ i + 3 ∧ j < length w ∧ breaks_out bull w i j a.

(** The candidate test in the specification's words: some close within the
    next one to three bars lies beyond the candle's extreme by more than the
    ATR at the candle. *)
Definition claimed_candidate (bull : bool) (w : DataFrame) (at_ : list fval)
    (i : nat) : bool :=
  (if bull then Qltb (iloc (close <$> w) i) (iloc (open <$> w) i)
   else Qltb (iloc (open <$> w) i) (iloc (close <$> w) i))
  && match iloc_fl at_ i with
     | Fin a =>
         existsb (λ j, if bull
                       then Qltb (iloc (high <$> w) i + 1 * a)
                                 (iloc (close <$> w) j)
                       else Qltb (iloc (close <$> w) j)
                                 (iloc (low <$> w) i - 1 * a))
                 (followers (length w) i)
     | _ => false
     end.

Import App.

(** [res] is the zone of the last row in [2, n) that shows a gap, or
    nothing when no row does. *)
Definition latest_gap (gap : nat → Prop) (zone : nat → Zone) (n : nat)
    (res : option Zone) : Prop :=
  match res with
  | Some z => ∃ i, 2 ≤ i < n ∧ gap i ∧ z = zone i
                   ∧ ∀ k, i < k < n → ¬ gap k
  | None => ∀ i, 2 ≤ i < n → ¬ gap i
  end.

(** The three-candle gaps and their zones. *)
Definition bull_gap (df : DataFrame) (i : nat) : Prop :=
  (iloc (high <$> df) (i - 2) < iloc (low <$> df) i)%Q.
Definition bear_gap (df : DataFrame) (i : nat) : Prop :=
  (iloc (high <$> df) i < iloc (low <$> df) (i - 2))%Q.
Definition bull_gap_zone (df : DataFrame) (i : nat) : Zone :=
  (iloc (high <$> df) (i - 2), iloc (low <$> df) i).
Definition bear_gap_zone (df : DataFrame) (i : nat) : Zone :=
  (iloc (high <$> df) i, iloc (low <$> df) (i - 2)).

Section CaptureVocabulary.

Context (clock : nat → Q) (now_label : nat → string)
  (show_timestamp : Z → string) (mode interval : string) (pro_mode : bool)
  (max_alerts_kept cooldown_minutes alert_threshold : Z).

(** What one pass of the capture loop adds: [new] are the alerts of the
    pass, newest first; each comes from a directional result at or above
    the threshold whose ticker was free to alert, and stamps that ticker
    with the time of the pass. *)
Definition pass_adds (results : list SignalResult) (now : Q)
    (st st' : SessionState) (new : list Alert) : Prop :=
  alerts st' = match new with
               | [] => alerts st
               | _ => slice_to max_alerts_kept (new ++ alerts st)
               end
  ∧ (∀ a, a ∈ new →
       ∃ turn r,
         r ∈ results ∧ directional r = true
         ∧ (alert_threshold ≤ setup_score r)%Z
         ∧ can_alert st (Signals.symbol r) now cooldown_minutes = true
         ∧ a = App.make_alert clock now_label show_timestamp mode interval
               pro_mode turn (first_row results r)
         ∧ a_symbol a = Signals.symbol r
         ∧ last_alert_ts st' !! Signals.symbol r = Some now)
  ∧ ((1 ≤ cooldown_minutes)%Z → NoDup (a_symbol <$> new))
  ∧ (∀ s, s ∉ (a_symbol <$> new) →
          last_alert_ts st' !! s = last_alert_ts st !! s).

End CaptureVocabulary.





(** Splits a call of the engine into its return paths. *)
Ltac engine_paths :=
  unfold compute_scalp_signal; cbv zeta;
  repeat match goal with
    | |- context [@decide ?P ?d] => destruct (@decide P d)
    | |- context [last ?l] => destruct (last l) eqn:?
    | |- context [requirements ?c ?p ?L] =>
        destruct (requirements c p L) eqn:?
    | |- context [if negb ?b then _ else _] =>
        destruct b eqn:?; cbn [negb]
    | |- context [if ?b && ?c then _ else _] => destruct (b && c) eqn:?
    end.

(** * Properties *)

(** ** Auxiliary facts on series *)

Lemma last_tail {A : Type} (n : Z) (l : list A) :
  tail n l ≠ [] → last (tail n l) = last l.
Proof.
  assert (Hdrop : ∀ k, drop k l ≠ [] → last (drop k l) = last l).
  { intros k Hk. rewrite <- (take_drop k l) at 2.
    rewrite last_app. destruct (last (drop k l)) eqn:E; [reflexivity|].
    apply last_None in E. contradiction. }
  unfold tail. destruct (n =? 0)%Z; [congruence|].
  destruct (0 <? n)%Z; apply Hdrop.
Qed.

(** With a positive lookback the window of a non-empty series is not
    empty, and it ends on the series' final bar. *)
Lemma window_nonempty (ohlcv : DataFrame) (lookback_bars : Z) :
  (0 < lookback_bars)%Z → ohlcv ≠ [] → window ohlcv lookback_bars ≠ [].
Proof.
  intros Hpos Hne. unfold window, tail.
  destruct (Z.eqb_spec lookback_bars 0); [lia|].
  destruct (Z.ltb_spec 0 lookback_bars); [|lia].
  intros Hnil. apply drop_nil_inv in Hnil.
  destruct ohlcv; [congruence|]. simpl in Hnil. lia.
Qed.

Lemma iloc_last_last {A : Type} (d x : A) (l : list A) :
  last l = Some x → iloc_last d l = x.
Proof.
  intros [l' ->]%last_Some. unfold iloc_last. apply List.last_last.
Qed.

Lemma iloc_last_elem (l : list fval) (a : Q) :
  iloc_last NaN l = Fin a → Fin a ∈ l.
Proof.
  intros H. destruct (last l) as [x|] eqn:E.
  - rewrite (iloc_last_last NaN x l E) in H. subst x.
    apply last_Some_elem_of, E.
  - apply last_None in E. subst l. discriminate H.
Qed.

Lemma Qltb_lt (x y : Q) : Qltb x y = true ↔ (x < y)%Q.
Proof.
  unfold Qltb. rewrite negb_true_iff. split.
  - intros H. apply Qnot_le_lt. intros Hle.
    apply Qle_bool_iff in Hle. congruence.
  - intros H. destruct (Qle_bool y x) eqn:E; [|reflexivity].
    apply Qle_bool_iff in E. lra.
Qed.

Lemma Qmin_proper (a b b' : Q) : (b == b')%Q → (Qmin a b == Qmin a b')%Q.
Proof.
  intros H.
  destruct (Q.min_spec a b) as [[? ->]|[? ->]];
    destruct (Q.min_spec a b') as [[? ->]|[? ->]]; lra.
Qed.

Lemma Qmax_proper (a b b' : Q) : (b == b')%Q → (Qmax a b == Qmax a b')%Q.
Proof.
  intros H.
  destruct (Q.max_spec a b) as [[? ->]|[? ->]];
    destruct (Q.max_spec a b') as [[? ->]|[? ->]]; lra.
Qed.

Lemma cumsum_from_length (acc : Q) (l : list Q) :
  length (cumsum_from acc l) = length l.
Proof. revert acc; induction l; intros; simpl; auto. Qed.

Lemma cumsum_from_nth (acc : Q) (l : list Q) (i : nat) :
  i < length l →
  (nth i (cumsum_from acc l) 0 == acc + Qsum (take (S i) l))%Q.
Proof.
  revert acc i. induction l as [|x l IH]; intros acc i Hi; simpl in Hi; [lia|].
  destruct i as [|i]; cbn [cumsum_from nth take Qsum fold_right].
  - rewrite take_0. simpl. ring.
  - rewrite IH by lia. fold (Qsum (take (S i) l)). ring.
Qed.

Lemma series_min_le (l : list Q) (x : Q) : x ∈ l → (series_min l <= x)%Q.
Proof.
  assert (H : ∀ r a, (fold_left Qmin r a <= a)%Q
                     ∧ ∀ y, y ∈ r → (fold_left Qmin r a <= y)%Q).
  { induction r as [|z r IH]; intros a; simpl.
    - split; [lra|]. intros y Hy. inversion Hy.
    - destruct (IH (Qmin a z)) as [H1 H2].
      pose proof (Q.le_min_l a z). pose proof (Q.le_min_r a z).
      split; [lra|]. intros y [->|Hy]%elem_of_cons; [lra|auto]. }
  destruct l as [|a r]; [inversion 1|].
  destruct (H r a) as [H1 H2].
  intros [->|Hx]%elem_of_cons; [exact H1|apply H2, Hx].
Qed.

Lemma series_max_ge (l : list Q) (x : Q) : x ∈ l → (x <= series_max l)%Q.
Proof.
  assert (H : ∀ r a, (a <= fold_left Qmax r a)%Q
                     ∧ ∀ y, y ∈ r → (y <= fold_left Qmax r a)%Q).
  { induction r as [|z r IH]; intros a; simpl.
    - split; [lra|]. intros y Hy. inversion Hy.
    - destruct (IH (Qmax a z)) as [H1 H2].
      pose proof (Q.le_max_l a z). pose proof (Q.le_max_r a z).
      split; [lra|]. intros y [->|Hy]%elem_of_cons; [lra|auto]. }
  destruct l as [|a r]; [inversion 1|].
  destruct (H r a) as [H1 H2].
  intros [->|Hx]%elem_of_cons; [exact H1|apply H2, Hx].
Qed.

Lemma Qsum_nonneg (l : list Q) :
  Forall (λ x, (0 <= x)%Q) l → (0 <= Qsum l)%Q.
Proof.
  induction 1 as [|x l Hx _ IH]; cbn [Qsum fold_right]; [lra|].
  fold (Qsum l). lra.
Qed.

Lemma rolling_mean_nonneg (w mp : nat) (l : list Q) (a : Q) :
  Forall (λ x, (0 <= x)%Q) l →
  Fin a ∈ rolling_mean w mp l → (0 <= a)%Q.
Proof.
  intros Hl Hin. unfold rolling_mean in Hin.
  apply list_elem_of_fmap in Hin as (i & Heq & _).
  destruct (decide _) in Heq; [|discriminate].
  injection Heq as ->.
  apply Qmult_le_0_compat.
  - apply Qsum_nonneg. unfold rolling_window.
    apply Forall_drop, Forall_take, Hl.
  - apply Qinv_le_0_compat. change 0%Q with (inject_Z 0).
    rewrite <- Zle_Qle. lia.
Qed.

(** ** VWAP in double precision *)

Section Rounding.
Import SpecFloat.
Variables prec emax : Z.






End Rounding.

Section DoubleFacts.
Import SpecFloat Binary64.

















End DoubleFacts.




(** ** VWAP in exact arithmetic *)

(** With exact quotients the range can be left only through a close that
    lies outside its bar: volumes are non-negative, yet the VWAP of a bar
    whose close lies above its high exceeds the highest high. *)
Lemma vwap_escapes_range :
  Forall (λ b, (0 <= volume b)%Q) Samples.stray_close
  ∧ ¬ vwap_bounded Samples.stray_close.
Proof.
  split; [repeat constructor; discriminate|].
  intros H. destruct (H 0%nat ltac:(simpl; lia)) as [_ Hb].
  destruct (Hb _ eq_refl) as [_ Hhi].
  vm_compute in Hhi. apply Hhi. reflexivity.
Qed.

Lemma weighted_sum_bounds (bs : DataFrame) (m M : Q) :
  Forall (λ b, (0 <= volume b)%Q ∧ close_in_range b
               ∧ (m <= low b)%Q ∧ (high b <= M)%Q) bs →
  let P := Qsum ((λ b, typical_price b * volume b)%Q <$> bs) in
  let V := Qsum (volume <$> bs) in
  (0 <= V ∧ m * V <= P ∧ P <= M * V)%Q.
Proof.
  induction 1 as [|b bs (Hv & [Hlc Hch] & Hm & HM) _ IH]; cbn.
  - lra.
  - fold (Qsum ((λ b, typical_price b * volume b)%Q <$> bs)).
    fold (Qsum (volume <$> bs)).
    cbv zeta in IH. destruct IH as (IH0 & IH1 & IH2).
    assert (Htp : (m <= typical_price b ∧ typical_price b <= M)%Q).
    { unfold typical_price. split.
      - apply Qle_shift_div_l; lra.
      - apply Qle_shift_div_r; lra. }
    destruct Htp as [Ht1 Ht2].
    pose proof (Qmult_le_compat_r _ _ _ Ht1 Hv).
    pose proof (Qmult_le_compat_r _ _ _ Ht2 Hv).
    repeat split; lra.
Qed.

Lemma vwap_lookup (df : DataFrame) (i : nat) :
  i < length df →
  vwap_at df i =
    let p := nth i (cumsum ((λ b, typical_price b * volume b)%Q <$> df)) 0%Q in
    let v := nth i (cumsum (volume <$> df)) 0%Q in
    if Qeq_bool v 0 then NaN else Fin (p / v)%Q.
Proof.
  intros Hi. unfold vwap_at, iloc_fl, vwap.
  rewrite zip_with_fmap_l, zip_with_fmap_r, zip_with_diag.
  set (pv := (λ b, _) <$> df).
  change pv with ((λ b, typical_price b * volume b)%Q <$> df). clear pv.
  set (ps := cumsum _). set (vs := cumsum (volume <$> df)).
  assert (Hp : i < length ps)
    by (unfold ps, cumsum; rewrite cumsum_from_length, length_fmap; exact Hi).
  assert (Hv : i < length vs)
    by (unfold vs, cumsum; rewrite cumsum_from_length, length_fmap; exact Hi).
  apply lookup_lt_is_Some in Hp as [p Hp], Hv as [v Hv].
  rewrite (nth_lookup_Some ps i _ p Hp), (nth_lookup_Some vs i _ v Hv).
  apply nth_lookup_Some. rewrite lookup_zip_with, Hp, Hv. reflexivity.
Qed.

(** The exact quotient: for bars with non-negative volumes whose close
    lies within [low, high], the volume-weighted mean of the typical prices
    is undefined exactly at the rows where the cumulative volume is zero,
    and where defined it lies between the lowest low and the highest high
    of the bars up to that row.  The double the code computes is this
    value rounded at each step. *)
Theorem vwap_defined_and_bounded (df : DataFrame) :
  Forall (λ b, (0 <= volume b)%Q ∧ close_in_range b) df →
  vwap_bounded df.
Proof.
  intros Hdf i Hi.
  set (bs := take (S i) df).
  assert (Hbs : Forall (λ b, (0 <= volume b)%Q ∧ close_in_range b
                   ∧ (lowest_low df i <= low b)%Q
                   ∧ (high b <= highest_high df i)%Q) bs).
  { apply Forall_forall. intros b Hb.
    assert (Hb' : b ∈ df) by (eapply subseteq_take; exact Hb).
    rewrite Forall_forall in Hdf. destruct (Hdf b Hb') as [? ?].
    do 2 (split; [assumption|]). split.
    - apply series_min_le. apply list_elem_of_fmap. eauto.
    - apply series_max_ge. apply list_elem_of_fmap. eauto. }
  apply weighted_sum_bounds in Hbs. cbv zeta in Hbs.
  destruct Hbs as (HV & Hlo & Hhi).
  rewrite vwap_lookup by exact Hi. cbv zeta.
  assert (Hp := cumsum_from_nth 0 ((λ b, typical_price b * volume b)%Q <$> df) i).
  assert (Hv := cumsum_from_nth 0 (volume <$> df) i).
  rewrite length_fmap in Hp, Hv. specialize (Hp Hi). specialize (Hv Hi).
  fold (cumsum ((λ b, typical_price b * volume b)%Q <$> df)) in Hp.
  fold (cumsum (volume <$> df)) in Hv.
  rewrite <- !fmap_take in Hp, Hv. fold bs in Hp, Hv.
  set (p := nth i (cumsum _) _) in *. set (v := nth i (cumsum (volume <$> df)) _) in *.
  unfold cum_volume. fold bs.
  clearbody p v bs.
  destruct (Qeq_bool v 0) eqn:Ez.
  - apply Qeq_bool_iff in Ez. split; [|discriminate].
    split; [intros _; lra|reflexivity].
  - apply Qeq_bool_neq in Ez.
    split; [split; [discriminate|intros Hz; exfalso; apply Ez; lra]|].
    intros x [= <-].
    assert (Hpos : (0 < v)%Q) by lra.
    split.
    + apply Qle_shift_div_l; [exact Hpos|]. rewrite Hp, Hv. lra.
    + apply Qle_shift_div_r; [exact Hpos|]. rewrite Hp, Hv. lra.
Qed.

Lemma vwap_defined_and_bounded_witness : vwap_bounded Samples.bars10.
Proof.
  apply vwap_defined_and_bounded.
  let bars := eval vm_compute in Samples.bars10 in
  change Samples.bars10 with bars.
  repeat (constructor; [split; [|split]; vm_compute; discriminate|]).
  constructor.
Defined.

(** ** Average true range *)

Lemma true_range_nonneg (df : DataFrame) (pc : option Q) :
  Forall (λ x, (0 <= x)%Q) (true_range pc df).
Proof.
  revert pc. induction df as [|b df IH]; intros pc; cbn [true_range].
  - constructor.
  - constructor; [|apply IH].
    destruct pc as [c|]; [|apply Qabs_nonneg].
    pose proof (Qabs_nonneg (low b - c)).
    pose proof (Q.le_max_r (Qmax (Qabs (high b - low b)) (Qabs (high b - c)))
                  (Qabs (low b - c))).
    lra.
Qed.

Lemma atr_or_zero_nonneg (df : DataFrame) : (0 <= atr_or_zero df)%Q.
Proof.
  unfold atr_or_zero. destruct (atr14_last df) as [a| |] eqn:E; try lra.
  apply iloc_last_elem in E.
  apply (rolling_mean_nonneg 14 14 (true_range None df)); [|exact E].
  apply true_range_nonneg.
Qed.

Lemma atr_last_locals (cfg : Preset) (df : DataFrame)
    (rsi_fast rsi_slow macd_hist : gmap Z fval) :
  atr_last (locals_of cfg df rsi_fast rsi_slow macd_hist) = atr_or_zero df.
Proof. reflexivity. Qed.

(** ** Order blocks *)

(** C6, as stated, fails: the search returns the zone of bar 5 although no
    close within three bars of any candle lies more than one ATR beyond that
    candle's extreme; the distance is taken from the candle's close. *)
Lemma order_block_measured_from_close :
  find_order_block Samples.bars10 Samples.atr_one "bull" 30
    = Some (8.5%Q, 10%Q, 5%Z)
  ∧ existsb (claimed_candidate true (ob_window Samples.bars10 30)
               (ob_atr Samples.bars10 Samples.atr_one 30))
            (seq 0 (length (ob_window Samples.bars10 30))) = false.
Proof. split; vm_compute; reflexivity. Qed.

Lemma usable_atr_Some (v : fval) (a : Q) :
  usable_atr v = Some a ↔ v = Fin a ∧ ¬ (a == 0)%Q.
Proof.
  unfold usable_atr. destruct v as [q| |]; try (split; [discriminate|intros [[=] _]]).
  destruct (Qeq_bool q 0) eqn:E.
  - apply Qeq_bool_iff in E. split; [discriminate|].
    intros [[= ->] H]. contradiction.
  - apply Qeq_bool_neq in E. split.
    + intros [= ->]. auto.
    + intros [[= ->] _]. reflexivity.
Qed.

Lemma followers_spec (n i j : nat) :
  j ∈ followers n i ↔ i < j ≤ i + 3 ∧ j < n.
Proof. unfold followers. rewrite elem_of_seq. lia. Qed.

Lemma colour_spec (bull : bool) (w : DataFrame) (i : nat) :
  (if bull then Qltb (iloc (close <$> w) i) (iloc (open <$> w) i)
   else Qltb (iloc (open <$> w) i) (iloc (close <$> w) i)) = true
  ↔ opposite_colour bull w i.
Proof. unfold opposite_colour. destruct bull; apply Qltb_lt. Qed.

Lemma existsb_followers (P : nat → bool) (n i : nat) :
  existsb P (followers n i) = true
  ↔ ∃ j, i < j ≤ i + 3 ∧ j < n ∧ P j = true.
Proof.
  rewrite existsb_exists. split.
  - intros (j & Hj%list_elem_of_In%followers_spec & HP). exists j. tauto.
  - intros (j & H1 & H2 & HP). exists j. split; [|exact HP].
    apply list_elem_of_In, followers_spec. tauto.
Qed.

Lemma displaced_spec (bull : bool) (w : DataFrame) (i : nat) (a : Q) :
  (if bull then displaced_up w i a else displaced_down w i a) = true
  ↔ ∃ j, i < j ≤ i + 3 ∧ j < length w ∧ breaks_out bull w i j a.
Proof.
  unfold breaks_out.
  destruct bull; unfold displaced_up, displaced_down; cbv zeta;
    rewrite existsb_followers; split.
  all: try (intros (j & H1 & H2 & [Ha Hb]%andb_true_iff);
            apply Qltb_lt in Ha, Hb;
            exists j; repeat split; try tauto; lra).
  all: intros (j & H1 & H2 & Ha & Hb);
       exists j; split; [exact H1|]; split; [exact H2|];
       apply andb_true_iff; split; apply Qltb_lt; lra.
Qed.

Lemma ob_candidate_spec (bull : bool) (w : DataFrame) (at_ : list fval)
    (i : nat) :
  ob_candidate bull w at_ i = true ↔ qualifies bull w at_ i.
Proof.
  unfold ob_candidate, qualifies.
  rewrite andb_true_iff, colour_spec.
  destruct (usable_atr (iloc_fl at_ i)) as [a|] eqn:E.
  - apply usable_atr_Some in E as [E Hnz]. rewrite displaced_spec.
    split; intros [Hc H]; (split; [exact Hc|]).
    + exists a. auto.
    + destruct H as (a' & Ea & _ & H). rewrite E in Ea.
      injection Ea as <-. exact H.
  - split; [intros [_ [=]]|].
    intros (_ & a & Ea & Hnz & _).
    assert (usable_atr (iloc_fl at_ i) = Some a)
      by (apply usable_atr_Some; auto).
    congruence.
Qed.

Lemma scan_down_spec (f : nat → bool) (n i : nat) :
  scan_down f n = Some i →
  i < n ∧ f i = true ∧ ∀ k, i < k < n → f k = false.
Proof.
  induction n as [|n IH]; cbn [scan_down]; [discriminate|].
  destruct (f n) eqn:E.
  - intros [= <-]. repeat split; [lia|exact E|intros; lia].
  - intros H. destruct (IH H) as (H1 & H2 & H3).
    repeat split; [lia|exact H2|].
    intros k Hk. destruct (decide (k = n)) as [->|]; [exact E|apply H3; lia].
Qed.

Lemma find_order_block_inv (df : DataFrame) (atr_series : gmap Z fval)
    (side : string) (lookback : Z) (z : Q * Q * Z) :
  find_order_block df atr_series side lookback = Some z →
  ∃ i, find_order_block_pos df atr_series side lookback = Some i
       ∧ z = ob_zone (String.eqb side "bull") (ob_window df lookback) i.
Proof.
  unfold find_order_block.
  destruct (find_order_block_pos df atr_series side lookback) as [i|];
    [|discriminate].
  intros [= <-]. eauto.
Qed.

(** A candle whose reconciled ATR is NaN, infinite or zero is passed over,
    whatever its colour and whatever follows it. *)
Lemma unusable_atr_skipped (bull : bool) (w : DataFrame) (at_ : list fval)
    (i : nat) :
  isfinite (iloc_fl at_ i) = false
  ∨ (∃ a, iloc_fl at_ i = Fin a ∧ (a == 0)%Q) →
  ob_candidate bull w at_ i = false.
Proof.
  intros H. destruct (ob_candidate bull w at_ i) eqn:E; [|reflexivity].
  apply ob_candidate_spec in E as (_ & a & Ea & Hnz & _).
  rewrite Ea in H. destruct H as [H | (a' & [= <-] & Hz)];
    [discriminate H | contradiction].
Qed.

(** C6 (amended): a returned zone comes from a candle of the last
    [lookback] bars that has three bars after it in that window, has the
    opposite colour and a finite non-zero reconciled ATR, and is followed
    within one to three bars by a close beyond its extreme that is more
    than one ATR away from the candle's own close; it is the most recent
    such candle, and the zone is [low, open] (bullish) or [open, high]
    (bearish) ordered so that low <= high. *)
Theorem order_block_characterised (df : DataFrame)
    (atr_series : gmap Z fval) (side : string) (lookback : Z)
    (zone_low zone_high : Q) (anchor : Z) :
  let bull := String.eqb side "bull" in
  let w := ob_window df lookback in
  let at_ := ob_atr df atr_series lookback in
  find_order_block df atr_series side lookback
    = Some (zone_low, zone_high, anchor) →
  10 ≤ length df
  ∧ ∃ i,
      i + 3 < length w
      ∧ qualifies bull w at_ i
      ∧ (∀ k, i < k → k + 3 < length w → ¬ qualifies bull w at_ k)
      ∧ anchor = nth i (ts <$> w) 0%Z
      ∧ (let lo := if bull then iloc (low <$> w) i else iloc (open <$> w) i in
         let hi := if bull then iloc (open <$> w) i else iloc (high <$> w) i in
         zone_low = Qmin lo hi ∧ zone_high = Qmax lo hi)
      ∧ (zone_low <= zone_high)%Q.
Proof.
  intros bull w at_ H.
  apply find_order_block_inv in H as (i & Hpos & Hz).
  unfold find_order_block_pos in Hpos.
  destruct (decide (length df < 10)); [discriminate|].
  split; [lia|].
  apply scan_down_spec in Hpos as (Hi & Hc & Hlater).
  fold w at_ bull in Hi, Hc, Hlater.
  exists i. split; [lia|].
  split; [apply ob_candidate_spec, Hc|].
  split.
  { intros k Hk Hk' Hq. apply ob_candidate_spec in Hq.
    rewrite Hlater in Hq by lia. discriminate. }
  unfold ob_zone in Hz. fold bull w in Hz. injection Hz as -> -> ->.
  split; [reflexivity|]. split; [split; reflexivity|].
  apply Q.min_le_iff. left. apply Q.le_max_l.
Qed.

Lemma order_block_characterised_witness :
  ∃ i, i + 3 < length (ob_window Samples.bars10 30)
       ∧ qualifies true (ob_window Samples.bars10 30)
           (ob_atr Samples.bars10 Samples.atr_one 30) i
       ∧ 5%Z = nth i (ts <$> ob_window Samples.bars10 30) 0%Z.
Proof.
  destruct (order_block_characterised Samples.bars10 Samples.atr_one "bull"
              30 8.5 10 5) as (_ & i & Hi & Hq & _ & Ht & _).
  - vm_compute; reflexivity.
  - exists i. auto.
Defined.

(** C8: a zone is returned only from a candle whose reconciled ATR is a
    finite, non-zero number; a candle whose ATR is NaN, infinite or zero
    never yields the result, in the bullish and in the bearish search. *)
Theorem no_zone_without_usable_atr (df : DataFrame)
    (atr_series : gmap Z fval) (side : string) (lookback : Z)
    (z : Q * Q * Z) :
  find_order_block df atr_series side lookback = Some z →
  ∃ i a,
    find_order_block_pos df atr_series side lookback = Some i
    ∧ z = ob_zone (String.eqb side "bull") (ob_window df lookback) i
    ∧ iloc_fl (ob_atr df atr_series lookback) i = Fin a
    ∧ ¬ (a == 0)%Q.
Proof.
  intros H. apply find_order_block_inv in H as (i & Hpos & Hz).
  pose proof Hpos as Hscan. unfold find_order_block_pos in Hscan.
  destruct (decide (length df < 10)); [discriminate|].
  apply scan_down_spec in Hscan as (_ & Hc & _).
  apply ob_candidate_spec in Hc as (_ & a & Ha & Hnz & _).
  exists i, a. auto.
Qed.

Lemma no_zone_without_usable_atr_witness :
  ∃ i a,
    find_order_block_pos Samples.bars10 Samples.atr_one "bull" 30 = Some i
    ∧ (8.5%Q, 10%Q, 5%Z) = ob_zone true (ob_window Samples.bars10 30) i
    ∧ iloc_fl (ob_atr Samples.bars10 Samples.atr_one 30) i = Fin a
    ∧ ¬ (a == 0)%Q.
Proof.
  apply (no_zone_without_usable_atr Samples.bars10 Samples.atr_one "bull" 30
           (8.5%Q, 10%Q, 5%Z)).
  vm_compute; reflexivity.
Defined.

(** ** Insufficient data, session gate, preset lookup *)

(** C5, as stated, fails: on an empty bar series the result carries the
    reason "Not enough data", not "insufficient data". *)
Lemma insufficient_reason_differs :
  ∃ r, compute_scalp_signal (Samples.always "OPENING") "X" [] ∅ ∅ ∅
         "Cleaner signals" false true false true 180 = Return r
       ∧ ¬ insufficient_as_stated r.
Proof.
  eexists; split; [reflexivity|].
  intros (_ & _ & Hreason & _); discriminate Hreason.
Qed.

(** C5 (amended): with fewer than 60 bars the call returns NEUTRAL, score 0,
    reason "Not enough data" and no price levels (nor last price nor
    timestamp; session "OFF", empty extras), whatever the oscillators, the
    mode, the pro flag, the session flags and the lookback are. *)
Theorem insufficient_data
    (classify_session : Z → string) (symbol : string) (ohlcv : DataFrame)
    (rsi_fast rsi_slow macd_hist : gmap Z fval) (mode : string)
    (pro_mode allow_opening allow_midday allow_power : bool)
    (lookback_bars : Z) :
  length ohlcv < 60 →
  compute_scalp_signal classify_session symbol ohlcv rsi_fast rsi_slow
    macd_hist mode pro_mode allow_opening allow_midday allow_power
    lookback_bars
  = Return (mkSignalResult symbol "NEUTRAL" 0 "Not enough data"
              None None None None None None "OFF" ∅).
Proof.
  intros Hlen. unfold compute_scalp_signal.
  destruct (decide (length ohlcv < 60)); [reflexivity | contradiction].
Qed.

Lemma insufficient_data_witness :
  compute_scalp_signal (Samples.always "POWER") "X" Samples.bars10
    (Samples.flat 50) (Samples.flat 50) Samples.macd_rising
    "Fast scalp" true true true true (-7)
  = Return (mkSignalResult "X" "NEUTRAL" 0 "Not enough data"
              None None None None None None "OFF" ∅).
Proof. apply insufficient_data. vm_compute. lia. Defined.

(** C9, as stated, fails: sixty bars, every timestamp labelled OFF, all
    three flags set; with [lookback_bars = 0] the evaluation window is empty
    and the call raises on [df.index[-1]] before it classifies a session. *)
Lemma off_session_empty_window :
  60 ≤ length Samples.bars60
  ∧ (∀ t, Samples.always "OFF" t = "OFF"%string)
  ∧ compute_scalp_signal (Samples.always "OFF") "X" Samples.bars60
      Samples.rsi_crossing (Samples.flat 50) Samples.macd_rising
      "Cleaner signals" false true true true 0
    = IndexError.
Proof.
  split; [vm_compute; lia|]. split; [reflexivity|].
  vm_compute. reflexivity.
Qed.

(** C9 (amended): given at least 60 bars and a lookback that leaves a
    non-empty evaluation window, when the final bar is labelled OFF no
    setting of the three allow flags lets it through: the result is
    NEUTRAL, score 0, reason "Filtered by time-of-day (OFF)", last price
    and timestamp of that bar, no levels. *)
Theorem off_session_filtered
    (classify_session : Z → string) (symbol : string) (ohlcv : DataFrame)
    (rsi_fast rsi_slow macd_hist : gmap Z fval) (mode : string)
    (pro_mode allow_opening allow_midday allow_power : bool)
    (lookback_bars : Z) (final : Bar) :
  60 ≤ length ohlcv →
  window ohlcv lookback_bars ≠ [] →
  last ohlcv = Some final →
  classify_session (ts final) = "OFF"%string →
  compute_scalp_signal classify_session symbol ohlcv rsi_fast rsi_slow
    macd_hist mode pro_mode allow_opening allow_midday allow_power
    lookback_bars
  = Return (mkSignalResult symbol "NEUTRAL" 0 "Filtered by time-of-day (OFF)"
              None None None None (Some (close final)) (Some (ts final))
              "OFF" ∅).
Proof.
  intros Hlen Hwin Hlast Hoff. unfold compute_scalp_signal.
  destruct (decide (length ohlcv < 60)); [lia|].
  assert (Hw : last (window ohlcv lookback_bars) = Some final).
  { unfold window in *. rewrite last_tail; assumption. }
  rewrite fmap_last, Hw. simpl. rewrite Hoff.
  replace (session_allowed "OFF" allow_opening allow_midday allow_power)
    with false by reflexivity.
  simpl. do 3 f_equal.
  apply iloc_last_last. rewrite fmap_last, Hw. reflexivity.
Qed.

Lemma off_session_filtered_witness :
  compute_scalp_signal (Samples.always "OFF") "X" Samples.bars60
    Samples.rsi_crossing (Samples.flat 50) Samples.macd_rising
    "Cleaner signals" false true true true 180
  = Return (mkSignalResult "X" "NEUTRAL" 0 "Filtered by time-of-day (OFF)"
              None None None None (Some 102%Q) (Some 59%Z) "OFF" ∅).
Proof.
  apply (off_session_filtered (Samples.always "OFF") "X" Samples.bars60
           Samples.rsi_crossing (Samples.flat 50) Samples.macd_rising
           "Cleaner signals" false true true true 180
           (mkBar 59 100 103 95 102 2000)).
  - vm_compute. lia.
  - vm_compute. discriminate.
  - reflexivity.
  - reflexivity.
Defined.

(** The preset table has exactly the two documented keys. *)
Lemma unknown_mode (mode : string) :
  PRESETS !! mode = None
  ↔ mode ≠ "Fast scalp"%string ∧ mode ≠ "Cleaner signals"%string.
Proof.
  unfold PRESETS. split.
  - intros H. split; intros ->; vm_compute in H; discriminate.
  - intros [H1 H2].
    rewrite lookup_insert_ne by congruence.
    rewrite lookup_insert_ne by congruence.
    apply lookup_empty.
Qed.



(** ** Score range *)

(** C1 fails on the code: in pro mode a requirement gate reports the raw
    maximum of the two totals, which is not clamped.  Sixty bars with a VWAP
    reclaim, a rising MACD histogram, volume confirmation, a higher low, a
    liquidity sweep and displacement, but no RSI event, give NEUTRAL with
    setup_score 105. *)
Theorem neutral_score_above_100 :
  compute_scalp_signal (Samples.always "OPENING") "X" Samples.bars60
    (Samples.flat 50) (Samples.flat 50) Samples.macd_rising
    "Cleaner signals" true true false true 180 = Return Samples.gated_result
  ∧ bias Samples.gated_result = "NEUTRAL"%string
  ∧ reason Samples.gated_result = "No RSI-5 snap/downshift event"%string
  ∧ setup_score Samples.gated_result = 105%Z
  ∧ ¬ (0 ≤ setup_score Samples.gated_result ≤ 100)%Z.
Proof.
  split; [vm_compute; reflexivity|].
  cbn [bias reason setup_score Samples.gated_result].
  repeat split; lia.
Qed.

Lemma award_fst (c : bool) (w : Z) (why : string) (s : Z * list string) :
  (award c w why s).1 = (s.1 + if c then w else 0)%Z.
Proof. destruct c; cbn; lia. Qed.

(** Bounds a sum of awards: each award is replaced by an unknown between
    zero and its weight. *)
Ltac score_cases :=
  cbv zeta;
  repeat match goal with
    | |- context [if ?c then (?a, ?b) else ?s] => destruct c
    end;
  cbn [fst snd];
  repeat rewrite award_fst;
  cbn [fst snd];
  repeat match goal with
    | |- context [if ?c then ?w else 0%Z] =>
        let z := fresh "z" in
        let H := fresh "Hz" in
        assert (H : (0 ≤ (if c then w else 0) ≤ w)%Z) by (destruct c; lia);
        set (z := if c then w else 0%Z) in *; clearbody z
    end;
  lia.

(** Raw totals: at most 100 from the base table, at most 150 with the pro
    weights, never negative. *)
Lemma long_score_range (pro_mode : bool) (L : Locals) :
  (0 ≤ (long_score pro_mode L).1 ≤ if pro_mode then 150 else 100)%Z.
Proof. unfold long_score. destruct pro_mode; score_cases. Qed.

Lemma short_score_range (pro_mode : bool) (L : Locals) :
  (0 ≤ (short_score pro_mode L).1 ≤ if pro_mode then 150 else 100)%Z.
Proof. unfold short_score. destruct pro_mode; score_cases. Qed.

(** X11: what does hold of the score: the bias is one of the three labels, the
    score is never negative, it stays within 100 on LONG and SHORT results
    and outside pro mode, and within 150 on NEUTRAL results in pro mode. *)
Lemma score_range_by_path
    (classify_session : Z → string) (symbol : string) (ohlcv : DataFrame)
    (rsi_fast rsi_slow macd_hist : gmap Z fval) (mode : string)
    (pro_mode allow_opening allow_midday allow_power : bool)
    (lookback_bars : Z) (r : SignalResult) :
  compute_scalp_signal classify_session symbol ohlcv rsi_fast rsi_slow
    macd_hist mode pro_mode allow_opening allow_midday allow_power
    lookback_bars = Return r →
  (bias r = "LONG" ∨ bias r = "SHORT" ∨ bias r = "NEUTRAL")%string
  ∧ (0 ≤ setup_score r ≤ 150)%Z
  ∧ (pro_mode = false ∨ bias r ≠ "NEUTRAL"%string → setup_score r ≤ 100)%Z.
Proof.
  unfold compute_scalp_signal; cbv zeta.
  set (L := locals_of _ _ _ _ _).
  pose proof (long_score_range pro_mode L) as Hl.
  pose proof (short_score_range pro_mode L) as Hs.
  clearbody L.
  engine_paths; intros [= <-]; cbn [bias setup_score];
    (split; [tauto|]); (split; [destruct pro_mode; lia|]);
    intros [-> | Hn]; try lia; try (exfalso; apply Hn; reflexivity).
Qed.

(** ** Trade levels and decision *)

(** The engine raises only on an empty window, and only once the
    sufficiency gate has been passed. *)
Lemma engine_returns
    (classify_session : Z → string) (symbol : string) (ohlcv : DataFrame)
    (rsi_fast rsi_slow macd_hist : gmap Z fval) (mode : string)
    (pro_mode allow_opening allow_midday allow_power : bool)
    (lookback_bars : Z) :
  length ohlcv < 60 ∨ window ohlcv lookback_bars ≠ [] →
  ∃ r, compute_scalp_signal classify_session symbol ohlcv rsi_fast rsi_slow
         macd_hist mode pro_mode allow_opening allow_midday allow_power
         lookback_bars = Return r.
Proof.
  intros H. engine_paths; eauto.
  destruct H as [H|H]; [lia|].
  match goal with E : last _ = None |- _ =>
    rewrite fmap_last in E; destruct (last (window ohlcv lookback_bars)) eqn:E';
    [discriminate|apply last_None in E'; contradiction] end.
Qed.




(** C3, as stated, fails: through a 13-bar window the call returns LONG
    while ATR14 at the final bar is undefined, so the stop cannot be
    [entry - 0.8 x ATR14]; the engine puts zero in its place. *)
Lemma levels_need_defined_atr :
  compute_scalp_signal (Samples.always "OPENING") "X" Samples.bars60
    Samples.rsi_crossing (Samples.flat 50) Samples.macd_rising
    "Cleaner signals" false true false true 13 = Return Samples.long_result
  ∧ bias Samples.long_result = "LONG"%string
  ∧ atr14_last (window Samples.bars60 13) = NaN
  ∧ ¬ levels_as_stated (window Samples.bars60 13)
        (locals_of (preset_of "Cleaner signals")
           (window Samples.bars60 13) Samples.rsi_crossing
           (Samples.flat 50) Samples.macd_rising) Samples.long_result.
Proof.
  assert (Hnan : atr14_last (window Samples.bars60 13) = NaN)
    by (vm_compute; reflexivity).
  split; [vm_compute; reflexivity|].
  split; [reflexivity|].
  split; [exact Hnan|].
  unfold levels_as_stated. intros (final & a & _ & Hatr & _).
  rewrite Hnan in Hatr. discriminate Hatr.
Qed.

(** C3 (amended): on a LONG return the entry is the final bar's close,
    stop = min(recent swing-low reference, entry - 0.8 x A), risk =
    max(entry - stop, 0.01), target_1r = entry + risk and target_2r = entry
    + 2 x risk, where A is ATR14 at the final bar when that is a finite
    number and 0 otherwise; a SHORT return mirrors it with stop =
    max(recent swing-high reference, entry + 0.8 x A). *)
Theorem level_derivation
    (classify_session : Z → string) (symbol : string) (ohlcv : DataFrame)
    (rsi_fast rsi_slow macd_hist : gmap Z fval) (mode : string)
    (pro_mode allow_opening allow_midday allow_power : bool)
    (lookback_bars : Z) (r : SignalResult) :
  let df := window ohlcv lookback_bars in
  let L := locals_of (preset_of mode) df rsi_fast rsi_slow macd_hist in
  compute_scalp_signal classify_session symbol ohlcv rsi_fast rsi_slow
    macd_hist mode pro_mode allow_opening allow_midday allow_power
    lookback_bars = Return r →
  bias r = "LONG"%string ∨ bias r = "SHORT"%string →
  ∃ final,
    last df = Some final
    ∧ (bias r = "LONG"%string → long_levels (atr_or_zero df) final L r)
    ∧ (bias r = "SHORT"%string → short_levels (atr_or_zero df) final L r).
Proof.
  intros df L.
  pose proof (atr_or_zero_nonneg df) as Hatr.
  pose proof (Q.max_l (atr_or_zero df) 0 Hatr) as Hmax.
  rewrite <- (atr_last_locals (preset_of mode) df rsi_fast rsi_slow macd_hist)
    in Hmax.
  unfold compute_scalp_signal; cbv zeta. fold df. fold L.
  rewrite <- (atr_last_locals (preset_of mode) df rsi_fast rsi_slow macd_hist).
  fold L in Hmax |- *. clearbody L df.
  engine_paths; intros [= <-] [Hb | Hb]; try discriminate Hb.
  all: match goal with
       | E : last (ts <$> ?d) = Some _, E' : last ?d = None |- _ =>
           rewrite fmap_last, E' in E; discriminate E
       | E' : last _ = Some ?b |- _ => rename b into final, E' into Hfinal
       end.
  all: exists final; split; [reflexivity|].
  all: split; intros Hb'; try discriminate Hb'.
  all: unfold long_levels, short_levels; cbn [entry stop target_1r target_2r].
  all: match goal with |- context [iloc_last 0%Q (close <$> ?d)] =>
         rewrite (iloc_last_last 0%Q (close final) (close <$> d))
           by (rewrite fmap_last, Hfinal; reflexivity) end.
  all: do 3 eexists; do 4 (split; [reflexivity|]).
  all: split; [|split; reflexivity].
  - apply Qmin_proper. lra.
  - apply Qmax_proper. lra.
Qed.

Lemma level_derivation_witness :
  ∃ final,
    last (window Samples.bars60 13) = Some final
    ∧ (bias Samples.long_result = "LONG"%string →
       long_levels (atr_or_zero (window Samples.bars60 13)) final
         (locals_of (preset_of "Cleaner signals") (window Samples.bars60 13)
            Samples.rsi_crossing (Samples.flat 50) Samples.macd_rising)
         Samples.long_result)
    ∧ (bias Samples.long_result = "SHORT"%string →
       short_levels (atr_or_zero (window Samples.bars60 13)) final
         (locals_of (preset_of "Cleaner signals") (window Samples.bars60 13)
            Samples.rsi_crossing (Samples.flat 50) Samples.macd_rising)
         Samples.long_result).
Proof.
  apply (level_derivation (Samples.always "OPENING") "X" Samples.bars60
           Samples.rsi_crossing (Samples.flat 50) Samples.macd_rising
           "Cleaner signals" false true false true 13 Samples.long_result).
  - vm_compute. reflexivity.
  - left. reflexivity.
Defined.



(** * Further properties of the indicator library *)

(** ** Exponential moving average *)

Lemma ewm_from_take (alpha y : Q) (l : list Q) (k : nat) :
  take k (ewm_from alpha y l) = ewm_from alpha y (take k l).
Proof.
  revert y k. induction l as [|x l IH]; intros y k; destruct k; cbn; auto.
  f_equal. apply IH.
Qed.

Lemma ema_take (series : list Q) (span : Z) (k : nat) :
  take k (ema series span) = ema (take k series) span.
Proof.
  destruct series as [|x0 r]; destruct k; cbn; auto.
  f_equal. apply ewm_from_take.
Qed.

Lemma ema_length (series : list Q) (span : Z) :
  length (ema series span) = length series.
Proof.
  destruct series as [|x0 r]; cbn; auto. f_equal.
  generalize x0 at 1. induction r; intros; cbn; auto.
Qed.

Lemma smoothing_factor_range (span : Z) :
  (1 ≤ span)%Z →
  (0 < 2 / (inject_Z span + 1) ∧ 2 / (inject_Z span + 1) <= 1)%Q.
Proof.
  intros H. assert (Hs : (1 <= inject_Z span)%Q).
  { change 1%Q with (inject_Z 1). rewrite <- Zle_Qle. exact H. }
  split.
  - apply Qlt_shift_div_l; lra.
  - apply Qle_shift_div_r; lra.
Qed.

Lemma ewm_from_bounded (alpha y m M : Q) (l : list Q) :
  (0 <= alpha ∧ alpha <= 1)%Q → (m <= y ∧ y <= M)%Q →
  Forall (λ x, (m <= x ∧ x <= M)%Q) l →
  Forall (λ x, (m <= x ∧ x <= M)%Q) (ewm_from alpha y l).
Proof.
  intros Ha Hy Hl. revert y Hy.
  induction Hl as [|x l Hx _ IH]; intros y Hy; cbn; constructor.
  - pose proof (Qmult_le_0_compat (1 - alpha) (y - m) ltac:(lra) ltac:(lra)).
    pose proof (Qmult_le_0_compat alpha (x - m) ltac:(lra) ltac:(lra)).
    pose proof (Qmult_le_0_compat (1 - alpha) (M - y) ltac:(lra) ltac:(lra)).
    pose proof (Qmult_le_0_compat alpha (M - x) ltac:(lra) ltac:(lra)).
    split; lra.
  - apply IH.
    pose proof (Qmult_le_0_compat (1 - alpha) (y - m) ltac:(lra) ltac:(lra)).
    pose proof (Qmult_le_0_compat alpha (x - m) ltac:(lra) ltac:(lra)).
    pose proof (Qmult_le_0_compat (1 - alpha) (M - y) ltac:(lra) ltac:(lra)).
    pose proof (Qmult_le_0_compat alpha (M - x) ltac:(lra) ltac:(lra)).
    split; lra.
Qed.

(** X1: for a span of at least 1 the EMA has one value per input, and its
    value at each row lies between the smallest and the largest input seen
    up to that row. *)
Theorem ema_within_range (series : list Q) (span : Z) (i : nat) :
  (1 ≤ span)%Z → i < length series →
  length (ema series span) = length series
  ∧ (series_min (take (S i) series) <= iloc (ema series span) i
     ∧ iloc (ema series span) i <= series_max (take (S i) series))%Q.
Proof.
  intros Hspan Hi. split; [apply ema_length|].
  set (pre := take (S i) series).
  assert (Hnth : iloc (ema series span) i ∈ ema pre span).
  { unfold pre. rewrite <- ema_take. unfold iloc.
    apply list_elem_of_lookup. exists i.
    rewrite lookup_take_lt by lia.
    assert (Hl : i < length (ema series span)) by (rewrite ema_length; lia).
    apply lookup_lt_is_Some in Hl as [v Hv].
    rewrite (nth_lookup_Some _ _ _ _ Hv). exact Hv. }
  assert (Hall : Forall (λ x, (series_min pre <= x ∧ x <= series_max pre)%Q)
                   (ema pre span)).
  { assert (Hpre : Forall (λ x, (series_min pre <= x
                                  ∧ x <= series_max pre)%Q) pre).
    { apply Forall_forall. intros x Hx. split;
        [apply series_min_le | apply series_max_ge]; exact Hx. }
    destruct pre as [|x0 r]; cbn [ema]; [constructor|].
    inversion Hpre as [|? ? Hx0 Hr]; subst.
    constructor; [exact Hx0|].
    destruct (smoothing_factor_range span Hspan).
    apply ewm_from_bounded; [split; lra | exact Hx0 | exact Hr]. }
  rewrite Forall_forall in Hall. apply Hall, Hnth.
Qed.

Lemma ema_within_range_witness :
  length (ema Samples.ramp 20) = length Samples.ramp
  ∧ (series_min (take 3 Samples.ramp) <= iloc (ema Samples.ramp 20) 2
     ∧ iloc (ema Samples.ramp 20) 2 <= series_max (take 3 Samples.ramp))%Q.
Proof.
  apply (ema_within_range Samples.ramp 20 2); [lia | vm_compute; lia].
Defined.

(** ** Average true range *)

Lemma true_range_length (pc : option Q) (df : DataFrame) :
  length (true_range pc df) = length df.
Proof. revert pc; induction df; intros; cbn; auto. Qed.

Lemma rolling_window_length (w : nat) (l : list Q) (i : nat) :
  i < length l → length (rolling_window w l i) = Nat.min (S i) w.
Proof.
  intros Hi. unfold rolling_window. rewrite length_drop, length_take. lia.
Qed.

(** X2: the ATR series has one value per bar, and its value at row [i] is
    undefined exactly while fewer than [period] bars have been seen, and on
    every row when [period] is 0. *)
Theorem atr_warm_up (df : DataFrame) (period i : nat) :
  i < length df →
  length (atr df period) = length df
  ∧ (iloc_fl (atr df period) i = NaN ↔ period = 0 ∨ S i < period).
Proof.
  intros Hi. unfold atr, rolling_mean.
  split; [rewrite length_fmap, length_seq; apply true_range_length|].
  unfold iloc_fl.
  set (tr := true_range None df).
  assert (Htr : length tr = length df) by apply true_range_length.
  erewrite nth_lookup_Some; cycle 1.
  { rewrite list_lookup_fmap, lookup_seq_lt by lia. reflexivity. }
  cbn [Nat.add]. rewrite rolling_window_length by lia.
  destruct (decide _); split; try discriminate; try lia; auto.
Qed.

Lemma atr_warm_up_witness :
  (length (atr Samples.bars60 14) = length Samples.bars60
   ∧ (iloc_fl (atr Samples.bars60 14) 12 = NaN ↔ 14 = 0 ∨ 13 < 14))
  ∧ (length (atr Samples.bars60 0) = length Samples.bars60
     ∧ (iloc_fl (atr Samples.bars60 0) 12 = NaN ↔ 0 = 0 ∨ 13 < 0)).
Proof.
  split.
  - apply (atr_warm_up Samples.bars60 14 12). vm_compute. lia.
  - apply (atr_warm_up Samples.bars60 0 12). vm_compute. lia.
Defined.

(** X3: no value of the ATR series is negative. *)
Theorem atr_never_negative (df : DataFrame) (period : nat) (a : Q) :
  Fin a ∈ atr df period → (0 <= a)%Q.
Proof. apply rolling_mean_nonneg, true_range_nonneg. Qed.

Lemma atr_never_negative_witness :
  ∃ a, iloc_fl (atr Samples.bars60 14) 59 = Fin a ∧ (0 <= a)%Q.
Proof.
  eexists. split; [vm_compute; reflexivity|].
  apply (atr_never_negative Samples.bars60 14).
  apply list_elem_of_lookup. exists 59. vm_compute. reflexivity.
Defined.

(** ** Swing detection *)

Lemma Qmin_cases (a z : Q) : Qmin a z = a ∨ Qmin a z = z.
Proof. unfold Qmin, GenericMinMax.gmin. destruct (a ?= z)%Q; auto. Qed.

Lemma Qmax_cases (a z : Q) : Qmax a z = a ∨ Qmax a z = z.
Proof. unfold Qmax, GenericMinMax.gmax. destruct (a ?= z)%Q; auto. Qed.

Lemma series_min_elem (l : list Q) : l ≠ [] → series_min l ∈ l.
Proof.
  assert (H : ∀ r a, fold_left Qmin r a = a ∨ fold_left Qmin r a ∈ r).
  { induction r as [|z r IH]; intros a; cbn; [auto|].
    destruct (IH (Qmin a z)) as [-> | H].
    - destruct (Qmin_cases a z) as [-> | ->]; [auto|].
      right. apply elem_of_cons. auto.
    - right. apply elem_of_cons. auto. }
  destruct l as [|a r]; [congruence|]. intros _. cbn.
  apply elem_of_cons. destruct (H r a); auto.
Qed.

Lemma series_max_elem (l : list Q) : l ≠ [] → series_max l ∈ l.
Proof.
  assert (H : ∀ r a, fold_left Qmax r a = a ∨ fold_left Qmax r a ∈ r).
  { induction r as [|z r IH]; intros a; cbn; [auto|].
    destruct (IH (Qmax a z)) as [-> | H].
    - destruct (Qmax_cases a z) as [-> | ->]; [auto|].
      right. apply elem_of_cons. auto.
    - right. apply elem_of_cons. auto. }
  destruct l as [|a r]; [congruence|]. intros _. cbn.
  apply elem_of_cons. destruct (H r a); auto.
Qed.

Lemma swing_window_elem (s : list Q) (left right i : nat) (x : Q) :
  left ≤ i → i + right < length s →
  x ∈ swing_window s left right i
  ↔ ∃ k, i - left ≤ k ≤ i + right ∧ s !! k = Some x.
Proof.
  intros Hl Hr. unfold swing_window. rewrite list_elem_of_lookup. split.
  - intros (j & Hj). apply lookup_take_Some in Hj as [Hj Hlt].
    rewrite lookup_drop in Hj. exists (i - left + j). split; [lia|exact Hj].
  - intros (k & Hk & Hx). exists (k - (i - left)).
    rewrite lookup_take_lt by lia. rewrite lookup_drop.
    replace (i - left + (k - (i - left))) with k by lia. exact Hx.
Qed.

Lemma iloc_lookup (s : list Q) (i : nat) :
  i < length s → s !! i = Some (iloc s i).
Proof.
  intros Hi. apply lookup_lt_is_Some in Hi as [v Hv].
  unfold iloc. rewrite (nth_lookup_Some _ _ _ _ Hv). exact Hv.
Qed.

(** X4: a row is flagged as a swing low exactly when it has [left] rows
    before it and [right] rows after it and its value is no greater than
    any value from [left] rows before to [right] rows after; rows without
    that context are never flagged. *)
Theorem swing_low_flag (s : list Q) (left right i : nat) :
  nth i (rolling_swing_lows s left right) false = true
  ↔ left ≤ i ∧ i + right < length s
    ∧ ∀ k, i - left ≤ k ≤ i + right → (iloc s i <= iloc s k)%Q.
Proof.
  unfold rolling_swing_lows.
  destruct (decide (i < length s)) as [Hi|Hi]; cycle 1.
  { rewrite nth_overflow by (rewrite length_fmap, length_seq; lia).
    split; [discriminate|lia]. }
  erewrite nth_lookup_Some; cycle 1.
  { rewrite list_lookup_fmap, lookup_seq_lt by lia. reflexivity. }
  cbn [Nat.add].
  destruct (decide _) as [[Hl Hr]|Hn]; [|split; [discriminate|tauto]].
  rewrite Qeq_bool_iff.
  assert (Hin : iloc s i ∈ swing_window s left right i).
  { apply swing_window_elem; auto. exists i. split; [lia|].
    apply iloc_lookup, Hi. }
  split.
  - intros Heq. do 2 (split; [assumption|]). intros k Hk.
    rewrite Heq. apply series_min_le. apply swing_window_elem; auto.
    exists k. split; [exact Hk|]. apply iloc_lookup. lia.
  - intros (_ & _ & Hall).
    assert (Hne : swing_window s left right i ≠ [])
      by (intros E; rewrite E in Hin; inversion Hin).
    pose proof (series_min_le _ _ Hin) as Hle.
    pose proof (series_min_elem _ Hne) as Hm.
    apply swing_window_elem in Hm as (k & Hk & Hx); auto.
    specialize (Hall k Hk).
    rewrite (iloc_lookup s k) in Hx by lia. injection Hx as Hx.
    rewrite <- Hx in *. lra.
Qed.

(** X5: a row is flagged as a swing high exactly when it has [left] rows
    before it and [right] rows after it and its value is no smaller than
    any value from [left] rows before to [right] rows after. *)
Theorem swing_high_flag (s : list Q) (left right i : nat) :
  nth i (rolling_swing_highs s left right) false = true
  ↔ left ≤ i ∧ i + right < length s
    ∧ ∀ k, i - left ≤ k ≤ i + right → (iloc s k <= iloc s i)%Q.
Proof.
  unfold rolling_swing_highs.
  destruct (decide (i < length s)) as [Hi|Hi]; cycle 1.
  { rewrite nth_overflow by (rewrite length_fmap, length_seq; lia).
    split; [discriminate|lia]. }
  erewrite nth_lookup_Some; cycle 1.
  { rewrite list_lookup_fmap, lookup_seq_lt by lia. reflexivity. }
  cbn [Nat.add].
  destruct (decide _) as [[Hl Hr]|Hn]; [|split; [discriminate|tauto]].
  rewrite Qeq_bool_iff.
  assert (Hin : iloc s i ∈ swing_window s left right i).
  { apply swing_window_elem; auto. exists i. split; [lia|].
    apply iloc_lookup, Hi. }
  split.
  - intros Heq. do 2 (split; [assumption|]). intros k Hk.
    rewrite Heq. apply series_max_ge. apply swing_window_elem; auto.
    exists k. split; [exact Hk|]. apply iloc_lookup. lia.
  - intros (_ & _ & Hall).
    assert (Hne : swing_window s left right i ≠ [])
      by (intros E; rewrite E in Hin; inversion Hin).
    pose proof (series_max_ge _ _ Hin) as Hle.
    pose proof (series_max_elem _ Hne) as Hm.
    apply swing_window_elem in Hm as (k & Hk & Hx); auto.
    specialize (Hall k Hk).
    rewrite (iloc_lookup s k) in Hx by lia. injection Hx as Hx.
    rewrite <- Hx in *. lra.
Qed.

(** ** Fair value gaps *)

Lemma fvg_scan (df : DataFrame) (m : nat) :
  let res := fold_left (fvg_step (high <$> df) (low <$> df)) (seq 2 m)
               (None, None) in
  latest_gap (bull_gap df) (bull_gap_zone df) (2 + m) res.1
  ∧ latest_gap (bear_gap df) (bear_gap_zone df) (2 + m) res.2.
Proof.
  induction m as [|m IH]; cbv zeta.
  - cbn. split; intros i Hi; lia.
  - rewrite seq_S, fold_left_app. cbn [fold_left].
    cbv zeta in IH. destruct IH as [IHb IHr].
    set (acc := fold_left _ _ _) in *. clearbody acc.
    unfold fvg_step; cbn [fst snd]. split.
    + destruct (Qltb _ _) eqn:E.
      * apply Qltb_lt in E. exists (2 + m). repeat split; auto; lia.
      * assert (Hno : ¬ bull_gap df (2 + m)).
        { intros H. apply Qltb_lt in H. unfold bull_gap in *. congruence. }
        destruct acc.1 as [z|]; cbn in *.
        -- destruct IHb as (i & Hi & Hg & Hz & Hlater).
           exists i. repeat split; auto; try lia.
           intros k Hk. destruct (decide (k = 2 + m)) as [->|];
             [exact Hno | apply Hlater; lia].
        -- intros i Hi. destruct (decide (i = 2 + m)) as [->|];
             [exact Hno | apply IHb; lia].
    + destruct (Qltb _ _) eqn:E.
      * apply Qltb_lt in E. exists (2 + m). repeat split; auto; lia.
      * assert (Hno : ¬ bear_gap df (2 + m)).
        { intros H. apply Qltb_lt in H. unfold bear_gap in *. congruence. }
        destruct acc.2 as [z|]; cbn in *.
        -- destruct IHr as (i & Hi & Hg & Hz & Hlater).
           exists i. repeat split; auto; try lia.
           intros k Hk. destruct (decide (k = 2 + m)) as [->|];
             [exact Hno | apply Hlater; lia].
        -- intros i Hi. destruct (decide (i = 2 + m)) as [->|];
             [exact Hno | apply IHr; lia].
Qed.

Lemma detect_fvg_scan (df : DataFrame) :
  latest_gap (bull_gap df) (bull_gap_zone df) (length df) (detect_fvg df).1
  ∧ latest_gap (bear_gap df) (bear_gap_zone df) (length df)
      (detect_fvg df).2.
Proof.
  unfold detect_fvg. destruct (decide (length df < 3)) as [Hs|Hs].
  - cbn. split; intros i Hi; lia.
  - pose proof (fvg_scan df (length df - 2)) as H. cbv zeta in H.
    replace (2 + (length df - 2)) with (length df) in H by lia. exact H.
Qed.

(** X6: [detect_fvg] returns, for each side, the zone of the most recent
    row whose low (bullish) or high (bearish) leaves a gap to the bar two
    rows earlier, and nothing exactly when no row does (so nothing on fewer
    than three bars). *)
Theorem detect_fvg_latest (df : DataFrame) :
  latest_gap (bull_gap df) (bull_gap_zone df) (length df) (detect_fvg df).1
  ∧ latest_gap (bear_gap df) (bear_gap_zone df) (length df)
      (detect_fvg df).2.
Proof. exact (detect_fvg_scan df). Qed.

(** X7: a gap zone that [detect_fvg] returns has its low strictly below
    its high. *)
Theorem detect_fvg_zone_ordered (df : DataFrame) (lo hi : Q) :
  (detect_fvg df).1 = Some (lo, hi) ∨ (detect_fvg df).2 = Some (lo, hi) →
  (lo < hi)%Q.
Proof.
  destruct (detect_fvg_scan df) as [Hb Hr].
  intros [H | H]; [rewrite H in Hb; destruct Hb as (i & _ & Hg & Hz & _)
                  | rewrite H in Hr; destruct Hr as (i & _ & Hg & Hz & _)];
    injection Hz as -> ->; exact Hg.
Qed.

Lemma detect_fvg_zone_ordered_witness : (101 < 102)%Q.
Proof.
  apply (detect_fvg_zone_ordered Samples.gapped 101 102).
  left. vm_compute. reflexivity.
Defined.

(** ** Order blocks and zones *)

Lemma scan_down_None (f : nat → bool) (n : nat) :
  scan_down f n = None ↔ ∀ k, k < n → f k = false.
Proof.
  induction n as [|n IH]; cbn [scan_down].
  - split; [intros _ k Hk; lia | reflexivity].
  - destruct (f n) eqn:E.
    + split; [discriminate|]. intros H. rewrite H in E by lia. discriminate.
    + rewrite IH. split; intros H k Hk.
      * destruct (decide (k = n)) as [->|]; [exact E | apply H; lia].
      * apply H. lia.
Qed.

(** X8: [find_order_block] returns nothing exactly when the frame has fewer
    than 10 bars or no candle of the lookback window with three bars after
    it qualifies (opposite colour, finite non-zero ATR, break-out within
    three bars). *)
Theorem no_order_block (df : DataFrame) (atr_series : gmap Z fval)
    (side : string) (lookback : Z) :
  let bull := String.eqb side "bull" in
  let w := ob_window df lookback in
  let at_ := ob_atr df atr_series lookback in
  find_order_block df atr_series side lookback = None
  ↔ length df < 10 ∨ ∀ i, i + 3 < length w → ¬ qualifies bull w at_ i.
Proof.
  intros bull w at_. unfold find_order_block, find_order_block_pos.
  fold bull w at_.
  destruct (decide (length df < 10)) as [Hs|Hs]; [cbn; tauto|].
  rewrite fmap_None, scan_down_None. split.
  - intros H. right. intros i Hi Hq. apply ob_candidate_spec in Hq.
    rewrite H in Hq by lia. discriminate.
  - intros [H|H] k Hk; [lia|].
    destruct (ob_candidate bull w at_ k) eqn:E; [|reflexivity].
    apply ob_candidate_spec in E. exfalso. apply (H k); [lia|exact E].
Qed.

Lemma in_zone_spec (price zone_low zone_high buffer : Q) :
  in_zone price zone_low zone_high buffer = true
  ↔ (zone_low - buffer <= price ∧ price <= zone_high + buffer)%Q.
Proof.
  unfold in_zone. cbv zeta. rewrite andb_true_iff, !Qle_bool_iff. tauto.
Qed.

(** X9: a price that lies in a zone with some buffer lies in it with every
    larger buffer. *)
Theorem in_zone_widens (price zone_low zone_high buffer wider : Q) :
  (buffer <= wider)%Q →
  in_zone price zone_low zone_high buffer = true →
  in_zone price zone_low zone_high wider = true.
Proof.
  intros Hb H. apply in_zone_spec in H. apply in_zone_spec. lra.
Qed.

Lemma in_zone_widens_witness : in_zone 10 8.5 10 0.25 = true.
Proof.
  apply (in_zone_widens 10 8.5 10 0 0.25); [lra | reflexivity].
Defined.

(** X10: the open of the candle behind a returned order block lies inside
    the returned zone, for every non-negative buffer. *)
Theorem order_block_holds_open (df : DataFrame) (atr_series : gmap Z fval)
    (side : string) (lookback : Z) (zone_low zone_high : Q) (anchor : Z)
    (buffer : Q) :
  find_order_block df atr_series side lookback
    = Some (zone_low, zone_high, anchor) →
  (0 <= buffer)%Q →
  ∃ i, find_order_block_pos df atr_series side lookback = Some i
       ∧ in_zone (iloc (open <$> ob_window df lookback) i)
           zone_low zone_high buffer = true.
Proof.
  intros H Hb. apply find_order_block_inv in H as (i & Hpos & Hz).
  exists i. split; [exact Hpos|].
  unfold ob_zone in Hz. injection Hz as -> -> _.
  apply in_zone_spec.
  destruct (String.eqb side "bull").
  - pose proof (Q.le_min_r (iloc (low <$> ob_window df lookback) i)
                  (iloc (open <$> ob_window df lookback) i)).
    pose proof (Q.le_max_r (iloc (low <$> ob_window df lookback) i)
                  (iloc (open <$> ob_window df lookback) i)).
    lra.
  - pose proof (Q.le_min_l (iloc (open <$> ob_window df lookback) i)
                  (iloc (high <$> ob_window df lookback) i)).
    pose proof (Q.le_max_l (iloc (open <$> ob_window df lookback) i)
                  (iloc (high <$> ob_window df lookback) i)).
    lra.
Qed.

Lemma order_block_holds_open_witness :
  ∃ i, find_order_block_pos Samples.bars10 Samples.atr_one "bull" 30 = Some i
       ∧ in_zone (iloc (open <$> ob_window Samples.bars10 30) i)
           8.5 10 0.25 = true.
Proof.
  apply (order_block_holds_open Samples.bars10 Samples.atr_one "bull" 30
           8.5 10 5 0.25); [vm_compute; reflexivity | lra].
Defined.

(** * Further properties of the signal engine *)

Lemma score_range_by_path_witness :
  (bias Samples.long_result = "LONG"
   ∨ bias Samples.long_result = "SHORT"
   ∨ bias Samples.long_result = "NEUTRAL")%string
  ∧ (0 ≤ setup_score Samples.long_result ≤ 150)%Z
  ∧ (false = false ∨ bias Samples.long_result ≠ "NEUTRAL"%string →
     setup_score Samples.long_result ≤ 100)%Z.
Proof.
  apply (score_range_by_path (Samples.always "OPENING") "X" Samples.bars60
           Samples.rsi_crossing (Samples.flat 50) Samples.macd_rising
           "Cleaner signals" false true false true 13 Samples.long_result).
  vm_compute. reflexivity.
Defined.

Lemma tail_nil_iff {A : Type} (n : Z) (l : list A) :
  tail n l = [] ↔ l = [] ∨ n = 0%Z ∨ (Z.of_nat (length l) ≤ - n)%Z.
Proof.
  unfold tail.
  destruct (Z.eqb_spec n 0) as [->|Hn]; [tauto|].
  destruct (Z.ltb_spec 0 n) as [Hp|Hp].
  - split.
    + intros H%drop_nil_inv. left. destruct l; [auto|]. cbn in H. lia.
    + intros [->|[?|?]]; [apply drop_nil|lia|lia].
  - split.
    + intros H%drop_nil_inv. right. right. lia.
    + intros [->|[?|?]]; [apply drop_nil|lia|]. apply drop_ge. lia.
Qed.

Lemma tail_saturates {A : Type} (n : Z) (l : list A) :
  (Z.of_nat (length l) ≤ n)%Z → tail n l = l.
Proof.
  intros H. unfold tail.
  destruct (Z.eqb_spec n 0) as [->|Hn].
  - destruct l; [reflexivity|]. cbn in H. lia.
  - destruct (Z.ltb_spec 0 n); [|lia].
    replace (length l - Z.to_nat n) with 0 by lia. reflexivity.
Qed.

(** Without the VWAP event a side collects at most 65 base points. *)
Lemma long_score_without_reclaim (loc : Locals) :
  vwap_long loc = false → ((long_score false loc).1 ≤ 65)%Z.
Proof. intros H. unfold long_score. rewrite H. score_cases. Qed.

Lemma short_score_without_rejection (loc : Locals) :
  vwap_short loc = false → ((short_score false loc).1 ≤ 65)%Z.
Proof. intros H. unfold short_score. rewrite H. score_cases. Qed.

Lemma fl_ltb_asym (a b : fval) : fl_ltb a b = true → fl_ltb b a = false.
Proof.
  destruct a as [x|n|], b as [y|m|]; cbn; try discriminate; try reflexivity.
  - intros H%Qltb_lt. destruct (Qltb y x) eqn:E; [|reflexivity].
    apply Qltb_lt in E. lra.
  - destruct m; [discriminate|reflexivity].
  - intros ->. reflexivity.
  - destruct n, m; cbn; auto.
Qed.

Lemma fl_between (a : fval) (x y : Q) :
  (x <= y)%Q → fl_ltb a (Fin x) = true → fl_ltb (Fin y) a = true → False.
Proof.
  destruct a as [q|n|]; cbn; try discriminate.
  - intros Hxy H1%Qltb_lt H2%Qltb_lt. lra.
  - intros _ -> H. discriminate H.
Qed.

(** X17: whatever the inputs, the long and the short form of an event never
    fire together: not VWAP reclaim with VWAP rejection, not RSI snapback
    with RSI downshift, not MACD turning up with turning down. *)
Theorem events_exclusive (cfg : Preset) (df : DataFrame)
    (vwap atr14 : list fval) (ema20 ema50 : list Q)
    (rsi_fast rsi_slow macd_hist : list fval) :
  let loc := analyse cfg df vwap atr14 ema20 ema50
               rsi_fast rsi_slow macd_hist in
  vwap_long loc && vwap_short loc = false
  ∧ rsi_snap loc && rsi_downshift loc = false
  ∧ macd_turn_up loc && macd_turn_down loc = false.
Proof.
  cbv zeta. unfold vwap_long, vwap_short, analyse.
  cbn [was_below_vwap reclaim_vwap was_above_vwap reject_vwap rsi_snap
       rsi_downshift macd_turn_up macd_turn_down].
  unfold fl_gtb, fl_geb.
  repeat split.
  - set (c := iloc_last NaN (Fin <$> (close <$> df))).
    set (v := iloc_last NaN vwap).
    destruct (fl_ltb v c) eqn:E1, (fl_ltb c v) eqn:E2;
      rewrite ?andb_false_r, ?andb_false_l; try reflexivity;
      try (destruct (_ || _), (_ || _), (fl_leb _ _); reflexivity).
    apply fl_ltb_asym in E1. congruence.
  - set (p := iloc_last NaN (shift 1 rsi_fast)).
    destruct (fl_ltb p (Fin 30)) eqn:A1, (fl_ltb p (Fin 25)) eqn:A2,
             (fl_ltb (Fin 70) p) eqn:B1, (fl_ltb (Fin 75) p) eqn:B2;
      rewrite ?andb_false_r, ?orb_false_r; cbn; try reflexivity;
      try (exfalso; first
             [ exact (fl_between p 30 70 ltac:(lra) A1 B1)
             | exact (fl_between p 30 75 ltac:(lra) A1 B2)
             | exact (fl_between p 25 70 ltac:(lra) A2 B1)
             | exact (fl_between p 25 75 ltac:(lra) A2 B2) ]).
  - set (m0 := iloc_last NaN macd_hist).
    set (m1 := iloc_last NaN (shift 1 macd_hist)).
    destruct (fl_ltb m1 m0) eqn:E1, (fl_ltb m0 m1) eqn:E2;
      rewrite ?andb_false_r, ?andb_false_l; cbn; try reflexivity.
    apply fl_ltb_asym in E1. congruence.
Qed.

Section EngineFacts.

Context (classify_session : Z → string) (symbol : string)
  (ohlcv : DataFrame) (rsi_fast rsi_slow macd_hist : gmap Z fval)
  (mode : string) (pro_mode allow_opening allow_midday allow_power : bool)
  (lookback_bars : Z).

Local Abbreviation run :=
  (compute_scalp_signal classify_session symbol ohlcv rsi_fast rsi_slow
     macd_hist mode pro_mode allow_opening allow_midday allow_power
     lookback_bars).
Local Abbreviation df := (window ohlcv lookback_bars).
Local Abbreviation L :=
  (locals_of (preset_of mode) (window ohlcv lookback_bars)
     rsi_fast rsi_slow macd_hist).

Lemma preset_of_cases :
  preset_of mode = mkPreset 70 1.15 0 1 1 1
  ∨ preset_of mode = mkPreset 80 1.35 1 1 1 1.
Proof.
  unfold preset_of, PRESETS.
  destruct (decide (mode = "Fast scalp"%string)) as [->|H1];
    [left; reflexivity|].
  destruct (decide (mode = "Cleaner signals"%string)) as [->|H2];
    [right; reflexivity|].
  right. rewrite !lookup_insert_ne, lookup_empty by congruence. reflexivity.
Qed.

(** X12: the call raises IndexError exactly when there are at least 60 bars
    and the lookback leaves an empty window: [lookback_bars] is 0, or it is
    negative and drops every bar. *)
Theorem index_error_iff :
  compute_scalp_signal classify_session symbol ohlcv rsi_fast rsi_slow
    macd_hist mode pro_mode allow_opening allow_midday allow_power
    lookback_bars = IndexError
  ↔ 60 ≤ length ohlcv
    ∧ (lookback_bars = 0 ∨ Z.of_nat (length ohlcv) ≤ - lookback_bars)%Z.
Proof.
  assert (Hw : last (ts <$> df) = None
               ↔ (lookback_bars = 0
                  ∨ Z.of_nat (length ohlcv) ≤ - lookback_bars)%Z
                 ∨ ohlcv = []).
  { rewrite fmap_last, fmap_None, last_None. unfold window.
    rewrite tail_nil_iff. tauto. }
  unfold compute_scalp_signal; cbv zeta.
  destruct (decide (length ohlcv < 60)) as [Hs|Hs].
  { split; [discriminate | intros [? _]; lia]. }
  destruct (last (ts <$> df)) as [last_ts|] eqn:E.
  - split.
    + destruct (negb _); [discriminate|].
      destruct (requirements _ _ _); [discriminate|].
      repeat destruct (_ && _); discriminate.
    + intros [_ H].
      assert (Hn : Some last_ts = None) by (apply Hw; auto).
      discriminate Hn.
  - split; [intros _|reflexivity]. split; [lia|].
    destruct Hw as [Hw _]. destruct (Hw eq_refl) as [H|H]; [exact H|].
    subst. cbn in Hs. lia.
Qed.

(** X13: a NEUTRAL result carries no entry, stop or targets. *)
Theorem neutral_has_no_levels (r : SignalResult) :
  run = Return r → bias r = "NEUTRAL"%string →
  entry r = None ∧ stop r = None ∧ target_1r r = None ∧ target_2r r = None.
Proof.
  engine_paths; intros [= <-] Hb; try discriminate Hb; cbn; auto.
Qed.


(** X15: a LONG or SHORT result is returned only when a VWAP event, an RSI
    event and a MACD turn were detected (on either side), under every mode;
    under every mode but "Fast scalp" also volume confirmation; and in pro
    mode also a liquidity sweep or an order-block retest. *)
Theorem directional_meets_requirements (r : SignalResult) :
  run = Return r →
  bias r = "LONG"%string ∨ bias r = "SHORT"%string →
  vwap_long L || vwap_short L = true
  ∧ rsi_snap L || rsi_downshift L = true
  ∧ macd_turn_up L || macd_turn_down L = true
  ∧ (mode ≠ "Fast scalp"%string → vol_ok L = true)
  ∧ (pro_mode = true →
     bull_sweep L || bear_sweep L || bull_ob_retest L || bear_ob_retest L
     = true).
Proof.
  assert (Hvol : mode ≠ "Fast scalp"%string →
                 preset_of mode = mkPreset 80 1.35 1 1 1 1).
  { intros Hm. unfold preset_of, PRESETS.
    rewrite lookup_insert_ne by congruence.
    destruct (decide (mode = "Cleaner signals"%string)) as [->|H2];
      [reflexivity|].
    rewrite lookup_insert_ne, lookup_empty by congruence. reflexivity. }
  unfold compute_scalp_signal; cbv zeta.
  set (loc := locals_of _ _ _ _ _) in *. clearbody loc.
  engine_paths; intros [= <-] [Hb|Hb]; try discriminate Hb.
  all: match goal with E : requirements _ _ _ = None |- _ =>
         unfold requirements in E; revert E end.
  all: destruct preset_of_cases as [Hp|Hp];
    [|clear Hvol]; rewrite Hp; cbn [require_vwap_event require_rsi_event
      require_macd_turn require_volume Z.eqb Pos.eqb andb];
    destruct (vwap_long loc || vwap_short loc); cbn; try discriminate;
    destruct (rsi_snap loc || rsi_downshift loc); cbn; try discriminate;
    destruct (macd_turn_up loc || macd_turn_down loc); cbn;
      try discriminate.
  all: try (destruct (vol_ok loc); cbn; try discriminate).
  all: destruct pro_mode; cbn;
       destruct (bull_sweep loc || bear_sweep loc
                 || bull_ob_retest loc || bear_ob_retest loc); cbn;
       try discriminate; intros _; repeat split; auto; try discriminate.
  all: intros Hm; specialize (Hvol Hm); rewrite Hp in Hvol; discriminate.
Qed.

(** X16: outside pro mode a LONG result always has the VWAP reclaim and a
    SHORT result the VWAP rejection: without it a side reaches at most 65
    points, below both thresholds. *)
Theorem basic_mode_needs_vwap_event (r : SignalResult) :
  pro_mode = false → run = Return r →
  (bias r = "LONG"%string → vwap_long L = true)
  ∧ (bias r = "SHORT"%string → vwap_short L = true).
Proof.
  intros ->. unfold compute_scalp_signal; cbv zeta.
  set (loc := locals_of _ _ _ _ _) in *.
  pose proof (long_score_without_reclaim loc) as Hl.
  pose proof (short_score_without_rejection loc) as Hs.
  clearbody loc.
  assert (Hmin : (70 ≤ min_actionable_score (preset_of mode))%Z)
    by (destruct preset_of_cases as [-> | ->]; cbn; lia).
  engine_paths; intros [= <-]; cbn [bias];
    (split; intros Hb; try discriminate Hb).
  - destruct (vwap_long loc); [reflexivity|]. specialize (Hl eq_refl).
    match goal with E : _ && _ = true |- _ =>
      apply andb_true_iff in E as [E _]; apply Z.leb_le in E end. lia.
  - destruct (vwap_short loc); [reflexivity|]. specialize (Hs eq_refl).
    match goal with E : _ && _ = true |- _ =>
      apply andb_true_iff in E as [E _]; apply Z.leb_le in E end. lia.
Qed.

(** X18: the score of a LONG or SHORT result is at least the threshold of
    the preset in force, which is at least 70, and at most 100. *)
Theorem directional_score_reaches_threshold (r : SignalResult) :
  run = Return r →
  bias r = "LONG"%string ∨ bias r = "SHORT"%string →
  (70 ≤ min_actionable_score (preset_of mode) ≤ setup_score r
   ∧ setup_score r ≤ 100)%Z.
Proof.
  assert (Hmin : (70 ≤ min_actionable_score (preset_of mode) ≤ 80)%Z)
    by (destruct preset_of_cases as [-> | ->]; cbn; lia).
  engine_paths; intros [= <-] [Hb|Hb]; try discriminate Hb;
    cbn [setup_score];
    match goal with E : _ && _ = true |- _ =>
      apply andb_true_iff in E as [E _]; apply Z.leb_le in E end; lia.
Qed.

(** X19: with at least 60 bars and a non-empty window, a final bar whose
    session the flags do not admit (a disabled OPENING, MIDDAY or POWER, or
    any other label) gives NEUTRAL, score 0, the reason "Filtered by
    time-of-day (label)", the bar's close and timestamp, and no levels. *)
Theorem disallowed_session_filtered (final : Bar) :
  60 ≤ length ohlcv → df ≠ [] → last ohlcv = Some final →
  session_allowed (classify_session (ts final))
    allow_opening allow_midday allow_power = false →
  run = Return (mkSignalResult symbol "NEUTRAL" 0
                  ("Filtered by time-of-day ("
                   +:+ classify_session (ts final) +:+ ")")
                  None None None None (Some (close final))
                  (Some (ts final)) (classify_session (ts final)) ∅).
Proof.
  intros Hlen Hwin Hlast Hno. unfold compute_scalp_signal.
  destruct (decide (length ohlcv < 60)); [lia|].
  assert (Hw : last df = Some final).
  { unfold window in *. rewrite last_tail; assumption. }
  rewrite fmap_last, Hw. cbn [fmap option_fmap option_map]. cbv zeta.
  rewrite Hno. cbn [negb]. do 3 f_equal.
  apply iloc_last_last. rewrite fmap_last, Hw. reflexivity.
Qed.

(** X20: every result returned on at least 60 bars carries the caller's
    symbol, the close and the timestamp of the final input bar, and the
    session label of that timestamp, whatever the lookback. *)
Theorem result_is_as_of_final_bar (r : SignalResult) :
  60 ≤ length ohlcv → run = Return r →
  ∃ final,
    last ohlcv = Some final
    ∧ Signals.symbol r = symbol
    ∧ last_price r = Some (close final)
    ∧ timestamp r = Some (ts final)
    ∧ session r = classify_session (ts final).
Proof.
  intros Hlen. unfold compute_scalp_signal; cbv zeta.
  destruct (decide (length ohlcv < 60)); [lia|].
  destruct (last (ts <$> df)) as [last_ts|] eqn:E; [|discriminate].
  rewrite fmap_last in E.
  destruct (last df) as [final|] eqn:Hw; [|discriminate E].
  injection E as <-.
  assert (Hne : df ≠ []) by (intros H; rewrite H in Hw; discriminate).
  assert (Hlast : last ohlcv = Some final).
  { unfold window in *. rewrite <- (last_tail lookback_bars); assumption. }
  assert (Hp : iloc_last 0%Q (close <$> df) = close final).
  { apply iloc_last_last. rewrite fmap_last, Hw. reflexivity. }
  rewrite Hp. intros Hr. exists final. split; [exact Hlast|].
  revert Hr. destruct (negb _); [intros [= <-]; cbn; auto|].
  destruct (requirements _ _ _); [intros [= <-]; cbn; auto|].
  repeat destruct (_ && _); intros [= <-]; cbn; auto.
Qed.

End EngineFacts.

(** X21: any two lookbacks that are at least the number of bars give the
    same outcome: the window is then the whole series. *)
Theorem lookback_saturates
    (classify_session : Z → string) (symbol : string) (ohlcv : DataFrame)
    (rsi_fast rsi_slow macd_hist : gmap Z fval) (mode : string)
    (pro_mode allow_opening allow_midday allow_power : bool)
    (lookback_bars lookback_bars' : Z) :
  (Z.of_nat (length ohlcv) ≤ lookback_bars)%Z →
  (Z.of_nat (length ohlcv) ≤ lookback_bars')%Z →
  compute_scalp_signal classify_session symbol ohlcv rsi_fast rsi_slow
    macd_hist mode pro_mode allow_opening allow_midday allow_power
    lookback_bars
  = compute_scalp_signal classify_session symbol ohlcv rsi_fast rsi_slow
      macd_hist mode pro_mode allow_opening allow_midday allow_power
      lookback_bars'.
Proof.
  intros H H'. unfold compute_scalp_signal, window.
  rewrite !tail_saturates by assumption. reflexivity.
Qed.

Lemma neutral_has_no_levels_witness :
  entry Samples.gated_result = None ∧ stop Samples.gated_result = None
  ∧ target_1r Samples.gated_result = None
  ∧ target_2r Samples.gated_result = None.
Proof.
  apply (neutral_has_no_levels (Samples.always "OPENING") "X" Samples.bars60
           (Samples.flat 50) (Samples.flat 50) Samples.macd_rising
           "Cleaner signals" true true false true 180 Samples.gated_result).
  - vm_compute. reflexivity.
  - reflexivity.
Defined.


Lemma directional_meets_requirements_witness :
  vol_ok (locals_of (preset_of "Cleaner signals") (window Samples.bars60 13)
            Samples.rsi_crossing (Samples.flat 50) Samples.macd_rising)
  = true.
Proof.
  destruct (directional_meets_requirements (Samples.always "OPENING") "X"
              Samples.bars60 Samples.rsi_crossing (Samples.flat 50)
              Samples.macd_rising "Cleaner signals" false true false true 13
              Samples.long_result) as (_ & _ & _ & Hvol & _).
  - vm_compute. reflexivity.
  - left. reflexivity.
  - apply Hvol. discriminate.
Defined.

Lemma basic_mode_needs_vwap_event_witness :
  vwap_long (locals_of (preset_of "Cleaner signals")
               (window Samples.bars60 13) Samples.rsi_crossing
               (Samples.flat 50) Samples.macd_rising) = true.
Proof.
  destruct (basic_mode_needs_vwap_event (Samples.always "OPENING") "X"
              Samples.bars60 Samples.rsi_crossing (Samples.flat 50)
              Samples.macd_rising "Cleaner signals" false true false true 13
              Samples.long_result) as [Hlong _].
  - reflexivity.
  - vm_compute. reflexivity.
  - apply Hlong. reflexivity.
Defined.

Lemma directional_score_reaches_threshold_witness :
  (70 ≤ min_actionable_score (preset_of "Cleaner signals")
   ≤ setup_score Samples.long_result
   ∧ setup_score Samples.long_result ≤ 100)%Z.
Proof.
  apply (directional_score_reaches_threshold (Samples.always "OPENING") "X"
           Samples.bars60 Samples.rsi_crossing (Samples.flat 50)
           Samples.macd_rising "Cleaner signals" false true false true 13
           Samples.long_result).
  - vm_compute. reflexivity.
  - left. reflexivity.
Defined.

Lemma disallowed_session_filtered_witness :
  compute_scalp_signal (Samples.always "MIDDAY") "X" Samples.bars60
    Samples.rsi_crossing (Samples.flat 50) Samples.macd_rising
    "Cleaner signals" false true false true 180
  = Return (mkSignalResult "X" "NEUTRAL" 0
              ("Filtered by time-of-day (" +:+ "MIDDAY" +:+ ")")
              None None None None (Some 102%Q) (Some 59%Z) "MIDDAY" ∅).
Proof.
  apply (disallowed_session_filtered (Samples.always "MIDDAY") "X"
           Samples.bars60 Samples.rsi_crossing (Samples.flat 50)
           Samples.macd_rising "Cleaner signals" false true false true 180
           (mkBar 59 100 103 95 102 2000)).
  - vm_compute. lia.
  - vm_compute. discriminate.
  - reflexivity.
  - reflexivity.
Defined.

Lemma result_is_as_of_final_bar_witness :
  ∃ final,
    last Samples.bars60 = Some final
    ∧ Signals.symbol Samples.gated_result = "X"%string
    ∧ last_price Samples.gated_result = Some (close final)
    ∧ timestamp Samples.gated_result = Some (ts final)
    ∧ session Samples.gated_result = Samples.always "OPENING" (ts final).
Proof.
  apply (result_is_as_of_final_bar (Samples.always "OPENING") "X"
           Samples.bars60 (Samples.flat 50) (Samples.flat 50)
           Samples.macd_rising "Cleaner signals" true true false true 180
           Samples.gated_result).
  - vm_compute. lia.
  - vm_compute. reflexivity.
Defined.

Lemma lookback_saturates_witness :
  compute_scalp_signal (Samples.always "OPENING") "X" Samples.bars60
    Samples.rsi_crossing (Samples.flat 50) Samples.macd_rising
    "Cleaner signals" false true false true 180
  = compute_scalp_signal (Samples.always "OPENING") "X" Samples.bars60
      Samples.rsi_crossing (Samples.flat 50) Samples.macd_rising
      "Cleaner signals" false true false true 60.
Proof.
  apply (lookback_saturates (Samples.always "OPENING") "X" Samples.bars60
           Samples.rsi_crossing (Samples.flat 50) Samples.macd_rising
           "Cleaner signals" false true false true 180 60).
  - vm_compute. discriminate.
  - vm_compute. discriminate.
Defined.

(** * Properties of the alert bookkeeping *)

Lemma slice_to_cons {A : Type} (n : Z) (x : A) (l : list A) :
  (0 ≤ n)%Z → slice_to n (x :: slice_to n l) = slice_to n (x :: l).
Proof.
  intros Hn. unfold slice_to. destruct (Z.ltb_spec n 0); [lia|].
  destruct (Z.to_nat n) as [|k]; [reflexivity|]. cbn. f_equal.
  rewrite take_take. f_equal. lia.
Qed.

Lemma slice_to_length {A : Type} (n : Z) (l : list A) :
  (0 ≤ n)%Z → (Z.of_nat (length (slice_to n l)) ≤ n)%Z.
Proof.
  intros Hn. unfold slice_to. destruct (Z.ltb_spec n 0); [lia|].
  rewrite length_take. lia.
Qed.

Lemma first_row_symbol (results : list SignalResult) (r : SignalResult) :
  Signals.symbol (first_row results r) = Signals.symbol r.
Proof.
  unfold first_row.
  destruct (List.find _ results) as [x|] eqn:E; [|reflexivity].
  apply find_some in E as [_ E]. apply String.eqb_eq in E. exact E.
Qed.

Lemma first_row_unique (results : list SignalResult) (r : SignalResult) :
  NoDup (Signals.symbol <$> results) → r ∈ results →
  first_row results r = r.
Proof.
  unfold first_row. induction results as [|x rs IH]; [inversion 2|].
  rewrite fmap_cons, NoDup_cons. intros [Hx Hnd] Hr. cbn [List.find].
  destruct (String.eqb_spec (Signals.symbol x) (Signals.symbol r)) as [E|E].
  - cbn. apply elem_of_cons in Hr as [->|Hr]; [reflexivity|].
    exfalso. apply Hx. rewrite E. apply list_elem_of_fmap. eauto.
  - apply elem_of_cons in Hr as [->|Hr]; [congruence|]. apply IH; auto.
Qed.

Lemma can_alert_same_lookup (st st' : SessionState) (s : string) (now : Q)
    (cd : Z) :
  last_alert_ts st' !! s = last_alert_ts st !! s →
  can_alert st' s now cd = can_alert st s now cd.
Proof. unfold can_alert. intros ->. reflexivity. Qed.

Lemma can_alert_just_alerted (st : SessionState) (s : string) (now : Q)
    (cd : Z) :
  last_alert_ts st !! s = Some now → (1 ≤ cd)%Z →
  can_alert st s now cd = false.
Proof.
  unfold can_alert. intros -> Hcd.
  destruct (Qle_bool _ _) eqn:E; [|reflexivity].
  apply Qle_bool_iff in E.
  assert (1 <= inject_Z cd)%Q
    by (change 1%Q with (inject_Z 1); rewrite <- Zle_Qle; exact Hcd).
  lra.
Qed.

Section CaptureFacts.

Context (clock : nat → Q) (now_label : nat → string)
  (show_timestamp : Z → string) (mode interval : string) (pro_mode : bool)
  (max_alerts_kept cooldown_minutes alert_threshold : Z)
  (capture_alerts : bool).

Local Abbreviation alert_at :=
  (make_alert clock now_label show_timestamp mode interval pro_mode).
Local Abbreviation pass :=
  (capture clock now_label show_timestamp mode interval pro_mode
     max_alerts_kept cooldown_minutes alert_threshold capture_alerts).
Local Abbreviation pass_from :=
  (capture_from clock now_label show_timestamp mode interval pro_mode
     max_alerts_kept cooldown_minutes alert_threshold).
Local Abbreviation adds :=
  (pass_adds clock now_label show_timestamp mode interval pro_mode
     max_alerts_kept cooldown_minutes alert_threshold).

Lemma capture_from_adds (results : list SignalResult) (now : Q)
    (st0 : SessionState) (todo : list SignalResult) :
  (0 ≤ max_alerts_kept)%Z →
  ∀ turn st new,
    todo ⊆ results →
    adds results now st0 st new →
    ∃ new', adds results now st0 (pass_from results now turn todo st) new'.
Proof.
  intros Hmax. induction todo as [|r rest IH]; intros turn st new Hsub Hinv.
  { exists new. exact Hinv. }
  cbn [capture_from].
  assert (Hr : r ∈ results) by (apply Hsub; left).
  assert (Hrest : rest ⊆ results)
    by (intros x Hx; apply Hsub; right; exact Hx).
  unfold capture_step.
  destruct (directional r && (alert_threshold <=? setup_score r)%Z) eqn:Eq;
    [|eapply IH; eauto].
  destruct (can_alert st (Signals.symbol r) now cooldown_minutes) eqn:Ec;
    [|eapply IH; eauto].
  apply andb_true_iff in Eq as [Ed Et]. apply Z.leb_le in Et.
  destruct Hinv as (Hal & Hnew & Hnd & Hrest_ts).
  assert (Hold : can_alert st0 (Signals.symbol r) now cooldown_minutes = true
                 ∧ ((1 ≤ cooldown_minutes)%Z →
                    Signals.symbol r ∉ (a_symbol <$> new))).
  { destruct (decide (Signals.symbol r ∈ (a_symbol <$> new))) as [Hin|Hnin].
    - apply list_elem_of_fmap in Hin as (a & Hs & Ha).
      destruct (Hnew a Ha) as (t & r' & _ & _ & _ & Hc & _ & Hs' & Hts).
      rewrite <- Hs' in Hts. rewrite <- Hs in Hts.
      split.
      + rewrite Hs, Hs'. exact Hc.
      + intros Hcd. exfalso.
        rewrite (can_alert_just_alerted st _ now _ Hts Hcd) in Ec.
        discriminate.
    - split; [|auto].
      rewrite <- (can_alert_same_lookup st0 st); [exact Ec|].
      apply Hrest_ts, Hnin. }
  destruct Hold as [Hc0 Hfresh].
  eapply (IH _ _ (alert_at turn (first_row results r) :: new)); [exact Hrest|].
  unfold pass_adds. cbn [alerts last_alert_ts add_in_app_alert].
  repeat split.
  - rewrite Hal. destruct new; [reflexivity|].
    cbn [app]. apply slice_to_cons, Hmax.
  - intros a [->|Ha]%elem_of_cons.
    + exists turn, r. repeat split; auto.
      * cbn. apply first_row_symbol.
      * apply lookup_insert_eq.
    + destruct (Hnew a Ha) as (t & r' & H1 & H2 & H3 & H4 & H5 & H6 & H7).
      exists t, r'. repeat split; auto.
      destruct (decide (Signals.symbol r = Signals.symbol r')) as [E|E].
      * rewrite E. apply lookup_insert_eq.
      * rewrite lookup_insert_ne by exact E. exact H7.
  - intros Hcd. rewrite fmap_cons. apply NoDup_cons. split; [|auto].
    cbn [a_symbol make_alert]. rewrite first_row_symbol. auto.
  - intros s Hs. rewrite fmap_cons in Hs.
    apply not_elem_of_cons in Hs as [Hne Hs].
    cbn [a_symbol make_alert] in Hne. rewrite first_row_symbol in Hne.
    rewrite lookup_insert_ne by congruence. apply Hrest_ts, Hs.
Qed.

Lemma pass_adds_exists (results : list SignalResult) (now : Q)
    (st : SessionState) :
  (0 ≤ max_alerts_kept)%Z →
  ∃ new, adds results now st (pass results now st) new.
Proof.
  intros Hmax.
  assert (Hinit : adds results now st st []).
  { repeat split; auto.
    - intros a Ha. inversion Ha.
    - intros _. constructor. }
  unfold capture. destruct capture_alerts; [|exists []; exact Hinit].
  eapply capture_from_adds; eauto.
Qed.

(** X22: one pass of the capture loop with a non-negative limit puts its
    new alerts in front of the stored ones and cuts the list to the limit;
    each new alert comes from a LONG or SHORT result at or above the
    threshold whose ticker was out of cooldown before the pass, is built
    from the first row of the table with that ticker, and leaves the ticker
    stamped with the time of the pass; with a cooldown of at least one
    minute no ticker is alerted twice in a pass; other tickers keep their
    stamp. *)
Theorem capture_pass (results : list SignalResult) (now : Q)
    (st : SessionState) :
  (0 ≤ max_alerts_kept)%Z →
  ∃ new, adds results now st (pass results now st) new.
Proof. apply pass_adds_exists. Qed.

(** X23: if the stored alerts are within a non-negative limit before a
    pass, they are within it after the pass. *)
Theorem capture_keeps_limit (results : list SignalResult) (now : Q)
    (st : SessionState) :
  (0 ≤ max_alerts_kept)%Z →
  (Z.of_nat (length (alerts st)) ≤ max_alerts_kept)%Z →
  (Z.of_nat (length (alerts (pass results now st))) ≤ max_alerts_kept)%Z.
Proof.
  intros Hmax Hlen.
  destruct (pass_adds_exists results now st Hmax) as (new & Hal & _).
  rewrite Hal. destruct new; [exact Hlen|]. apply slice_to_length, Hmax.
Qed.

(** X24: a ticker whose last alert is less than the cooldown ago gets no
    alert in the pass and keeps its stamp. *)
Theorem cooldown_blocks_ticker (results : list SignalResult) (now : Q)
    (st : SessionState) (s : string) (t0 : Q) :
  (0 ≤ max_alerts_kept)%Z →
  last_alert_ts st !! s = Some t0 →
  (now - t0 < inject_Z cooldown_minutes * 60)%Q →
  ∃ new,
    adds results now st (pass results now st) new
    ∧ (s ∉ (a_symbol <$> new))
    ∧ last_alert_ts (pass results now st) !! s = Some t0.
Proof.
  intros Hmax Hts Hcool.
  destruct (pass_adds_exists results now st Hmax) as (new & Hadds).
  exists new. split; [exact Hadds|].
  destruct Hadds as (_ & Hnew & _ & Hkeep).
  assert (Hnin : s ∉ (a_symbol <$> new)).
  { intros (a & -> & Ha)%list_elem_of_fmap.
    destruct (Hnew a Ha) as (_ & r & _ & _ & _ & Hc & _ & Hs & _).
    rewrite Hs in Hts. unfold can_alert in Hc. rewrite Hts in Hc.
    apply Qle_bool_iff in Hc. lra. }
  split; [exact Hnin|]. rewrite Hkeep by exact Hnin. exact Hts.
Qed.

(** X25: when every ticker occurs once in the results, each alert of a
    pass is LONG or SHORT with a score at or above the threshold. *)
Theorem alerts_are_directional (results : list SignalResult) (now : Q)
    (st : SessionState) :
  (0 ≤ max_alerts_kept)%Z →
  NoDup (Signals.symbol <$> results) →
  ∃ new,
    adds results now st (pass results now st) new
    ∧ ∀ a, a ∈ new →
           (a_bias a = "LONG" ∨ a_bias a = "SHORT")%string
           ∧ (alert_threshold ≤ a_score a)%Z.
Proof.
  intros Hmax Hnd.
  destruct (pass_adds_exists results now st Hmax) as (new & Hadds).
  exists new. split; [exact Hadds|].
  destruct Hadds as (_ & Hnew & _). intros a Ha.
  destruct (Hnew a Ha) as (t & r & Hr & Hd & Ht & _ & -> & _).
  rewrite (first_row_unique results r Hnd Hr).
  cbn [a_bias a_score make_alert]. split; [|exact Ht].
  unfold directional in Hd. apply orb_true_iff in Hd as [Hd|Hd];
    apply String.eqb_eq in Hd; auto.
Qed.

End CaptureFacts.

Lemma capture_pass_witness :
  ∃ new,
    pass_adds (λ _, 0%Q) (λ _, ""%string) (λ _, ""%string)
      "Cleaner signals" "1min" false 60 7 80
      [Samples.long_result] 2000 Samples.fresh_state
      (capture (λ _, 0%Q) (λ _, ""%string) (λ _, ""%string)
         "Cleaner signals" "1min" false 60 7 80 true
         [Samples.long_result] 2000 Samples.fresh_state) new.
Proof.
  apply (capture_pass (λ _, 0%Q) (λ _, ""%string) (λ _, ""%string)
           "Cleaner signals" "1min" false 60 7 80 true
           [Samples.long_result] 2000 Samples.fresh_state).
  lia.
Defined.

Lemma capture_keeps_limit_witness :
  (Z.of_nat (length (alerts
     (capture (λ _, 0%Q) (λ _, ""%string) (λ _, ""%string)
        "Cleaner signals" "1min" false 60 7 80 true
        [Samples.long_result] 2000 Samples.fresh_state))) ≤ 60)%Z.
Proof.
  apply (capture_keeps_limit (λ _, 0%Q) (λ _, ""%string) (λ _, ""%string)
           "Cleaner signals" "1min" false 60 7 80 true
           [Samples.long_result] 2000 Samples.fresh_state).
  - lia.
  - vm_compute. discriminate.
Defined.

Lemma cooldown_blocks_ticker_witness :
  ∃ new,
    pass_adds (λ _, 0%Q) (λ _, ""%string) (λ _, ""%string)
      "Cleaner signals" "1min" false 60 7 80
      [Samples.long_result] 1100 Samples.cooling_state
      (capture (λ _, 0%Q) (λ _, ""%string) (λ _, ""%string)
         "Cleaner signals" "1min" false 60 7 80 true
         [Samples.long_result] 1100 Samples.cooling_state) new
    ∧ ("X"%string ∉ (a_symbol <$> new))
    ∧ last_alert_ts
        (capture (λ _, 0%Q) (λ _, ""%string) (λ _, ""%string)
           "Cleaner signals" "1min" false 60 7 80 true
           [Samples.long_result] 1100 Samples.cooling_state) !! "X"%string
      = Some 1000%Q.
Proof.
  apply (cooldown_blocks_ticker (λ _, 0%Q) (λ _, ""%string) (λ _, ""%string)
           "Cleaner signals" "1min" false 60 7 80 true
           [Samples.long_result] 1100 Samples.cooling_state "X" 1000).
  - lia.
  - reflexivity.
  - vm_compute. reflexivity.
Defined.

Lemma alerts_are_directional_witness :
  ∃ new,
    pass_adds (λ _, 0%Q) (λ _, ""%string) (λ _, ""%string)
      "Cleaner signals" "1min" false 60 7 80
      [Samples.long_result] 2000 Samples.fresh_state
      (capture (λ _, 0%Q) (λ _, ""%string) (λ _, ""%string)
         "Cleaner signals" "1min" false 60 7 80 true
         [Samples.long_result] 2000 Samples.fresh_state) new
    ∧ ∀ a, a ∈ new →
           (a_bias a = "LONG" ∨ a_bias a = "SHORT")%string
           ∧ (80 ≤ a_score a)%Z.
Proof.
  apply (alerts_are_directional (λ _, 0%Q) (λ _, ""%string)
           (λ _, ""%string) "Cleaner signals" "1min" false 60 7 80 true
           [Samples.long_result] 2000 Samples.fresh_state).
  - lia.
  - apply NoDup_singleton.
Defined.
